(** * RateMyProf UW Tacoma Assistant: the resolution pipeline of [main.py]

    A shallow embedding of the backend's request handler [get_professor] and
    of the helpers it calls ([search_professor], [fetch_reviews],
    [is_abusive], [summarize_reviews], [_fallback_summary], [_cache_key]),
    followed by the properties the specification states about them.

    Conventions of the embedding.
    - Python values that come out of [resp.json()] are values of [pyval].
    - A Python [str] is a [string]; the model is exact on ASCII text
      (code points below 128), which is where [str.lower], [str.upper],
      [str.strip], [str.split] and the regular expression class [\s] are
      defined below.
    - A Python [float] is a binary64 [float]; [float(...)] and
      [round(..., 1)] are computed with correct rounding.
    - A Python exception is a value of [exn]; code that can raise lives in
      [res], and code that also talks to a service or to the cache lives in
      the state monad [M] over [state].
    - The two remote services and the model client are oracles ([services]):
      each answer may depend on the calls made so far. Every call is recorded
      in the [calls] component of the state. *)

From Stdlib Require Import ZArith Floats Ascii String List Bool Lia DecimalString.
From stdpp Require Import gmap strings list.

Local Open Scope string_scope.
Local Open Scope Z_scope.

(** ** Characters and strings *)

Module Str.

(** [str.isspace] on ASCII: the characters [str.strip], [str.split] and
    the pattern [\s] treat as whitespace. *)
Definition is_space (c : ascii) : bool :=
  match N_of_ascii c with
  | 9 | 10 | 11 | 12 | 13 | 28 | 29 | 30 | 31 | 32 => true
  | _ => false
  end%N.

Definition is_upper (c : ascii) : bool :=
  let n := N_of_ascii c in ((65 <=? n) && (n <=? 90))%N.

Definition is_lower (c : ascii) : bool :=
  let n := N_of_ascii c in ((97 <=? n) && (n <=? 122))%N.

Definition is_digit (c : ascii) : bool :=
  let n := N_of_ascii c in ((48 <=? n) && (n <=? 57))%N.

Definition lower_char (c : ascii) : ascii :=
  if is_upper c then ascii_of_N (N_of_ascii c + 32) else c.

Definition upper_char (c : ascii) : ascii :=
  if is_lower c then ascii_of_N (N_of_ascii c - 32) else c.

Fixpoint map_chars (f : ascii -> ascii) (s : string) : string :=
  match s with
  | EmptyString => EmptyString
  | String c s' => String (f c) (map_chars f s')
  end.

(** [s.lower()] and [s.upper()] *)
Definition lower : string -> string := map_chars lower_char.
Definition upper : string -> string := map_chars upper_char.

Definition is_empty (s : string) : bool :=
  match s with EmptyString => true | _ => false end.

Fixpoint lstrip (s : string) : string :=
  match s with
  | EmptyString => EmptyString
  | String c s' => if is_space c then lstrip s' else s
  end.

Fixpoint rstrip (s : string) : string :=
  match s with
  | EmptyString => EmptyString
  | String c s' =>
      let r := rstrip s' in
      if is_space c && is_empty r then EmptyString else String c r
  end.

(** [s.strip()] *)
Definition strip (s : string) : string := rstrip (lstrip s).

(** [s.split()]: the maximal runs of non-whitespace characters, in order.
    [cur] is the token being read. *)
Fixpoint split_from (cur : string) (s : string) : list string :=
  match s with
  | EmptyString => if is_empty cur then [] else [cur]
  | String c s' =>
      if is_space c
      then (if is_empty cur then split_from EmptyString s'
            else cur :: split_from EmptyString s')
      else split_from (cur ++ String c EmptyString) s'
  end.

Definition split (s : string) : list string := split_from EmptyString s.

(** [re.sub(r"\s+", " ", s)]: every maximal run of whitespace becomes one
    space. [in_run] tells that the previous character was whitespace. *)
Fixpoint sub_ws (in_run : bool) (s : string) : string :=
  match s with
  | EmptyString => EmptyString
  | String c s' =>
      if is_space c
      then (if in_run then sub_ws true s' else String " "%char (sub_ws true s'))
      else String c (sub_ws false s')
  end.

Definition collapse_ws (s : string) : string := sub_ws false s.

(** [s[:n]] *)
Fixpoint prefix (n : nat) (s : string) : string :=
  match n, s with
  | S n', String c s' => String c (prefix n' s')
  | _, _ => EmptyString
  end.

(** [s.replace(c, '')] for a one-character [c] *)
Fixpoint remove_char (c : ascii) (s : string) : string :=
  match s with
  | EmptyString => EmptyString
  | String d s' =>
      if Ascii.eqb c d then remove_char c s' else String d (remove_char c s')
  end.

(** [sep.join(l)] *)
Fixpoint join (sep : string) (l : list string) : string :=
  match l with
  | [] => EmptyString
  | [x] => x
  | x :: rest => x ++ sep ++ join sep rest
  end.

(** [str(n)] for a natural number *)
Definition of_nat (n : nat) : string := NilZero.string_of_uint (Nat.to_uint n).

(** The characters that have no literal form inside a string. *)
Definition dquote : string := String (ascii_of_N 34) EmptyString.
Definition newline : string := String (ascii_of_N 10) EmptyString.

(** Every character of [s] is whitespace ([s] may be empty). *)
Fixpoint all_space (s : string) : bool :=
  match s with
  | EmptyString => true
  | String c s' => is_space c && all_space s'
  end.

End Str.

(** ** Floating-point numbers

    Python's [float] is IEEE binary64. Conversions are computed on the
    specification floats of the standard library and rounded once, to nearest
    with ties to even, as CPython's conversions are. *)

Module PyFloat.

(** [float(z)] for an [int]: the nearest float; [None] stands for the
    [OverflowError] of an integer beyond the largest float. *)
Definition of_Z (z : Z) : option float :=
  match binary_normalize prec emax z 0 false with
  | S754_infinity _ => None
  | x => Some (SF2Prim x)
  end.

(** The nearest float to [(-1)^s * num / den], for positive [num], [den]. *)
Definition of_ratio (s : bool) (num den : positive) : float :=
  SF2Prim (SFdiv prec emax (S754_finite s num 0) (S754_finite false den 0)).

(** [num / den] rounded to the nearest integer, ties to the even one. *)
Definition round_half_even (num den : Z) : Z :=
  let q := num / den in
  let r := num mod den in
  match 2 * r ?= den with
  | Lt => q
  | Gt => q + 1
  | Eq => if Z.even q then q else q + 1
  end.

(** [round(x, 1)]: the exact value of [x] is rounded to one decimal, ties
    to even, and the decimal is converted back to the nearest float.
    Infinities and NaN are returned as they are; the sign of a zero result
    is the sign of [x]. *)
Definition round1 (x : float) : float :=
  match Prim2SF x with
  | S754_finite s m e =>
      let tenths :=
        if 0 <=? e then 10 * Z.pos m * 2 ^ e
        else round_half_even (10 * Z.pos m) (2 ^ (- e)) in
      match tenths with
      | Z.pos n => of_ratio s n 10
      | _ => SF2Prim (S754_zero s)
      end
  | _ => x
  end.

(** *** [float(s)] for a [str] *)

(** The whitespace [float] strips from both ends of an ASCII string. *)
Definition is_c_space (c : ascii) : bool :=
  match N_of_ascii c with
  | 9 | 10 | 11 | 12 | 13 | 32 => true
  | _ => false
  end%N.

Fixpoint ltrim (s : string) : string :=
  match s with
  | EmptyString => EmptyString
  | String c s' => if is_c_space c then ltrim s' else s
  end.

Fixpoint rtrim (s : string) : string :=
  match s with
  | EmptyString => EmptyString
  | String c s' =>
      let r := rtrim s' in
      if is_c_space c && Str.is_empty r then EmptyString else String c r
  end.

Definition is_underscore (c : ascii) : bool := Ascii.eqb c "_"%char.

(** An underscore is accepted only between two digits. [prev] is the
    previous character, if any. *)
Fixpoint underscores_ok (prev : option ascii) (s : string) : bool :=
  match s with
  | EmptyString =>
      match prev with Some p => negb (is_underscore p) | None => true end
  | String c s' =>
      (if is_underscore c
       then match prev with Some p => Str.is_digit p | None => false end
       else match prev with
            | Some p => if is_underscore p then Str.is_digit c else true
            | None => true
            end)
      && underscores_ok (Some c) s'
  end.

(** The longest run of digits at the head of [s]: its value after [acc],
    how many digits were read after [n], and what follows. *)
Fixpoint digits_from (acc n : Z) (s : string) : Z * Z * string :=
  match s with
  | String c s' =>
      if Str.is_digit c
      then digits_from (10 * acc + (Z.of_N (N_of_ascii c) - 48)) (n + 1) s'
      else (acc, n, s)
  | EmptyString => (acc, n, s)
  end.

Definition split_sign (s : string) : bool * string :=
  match s with
  | String "-" r => (true, r)
  | String "+" r => (false, r)
  | _ => (false, s)
  end.

(** The exponent part, if [s] starts with a well-formed one: its value and
    what follows. An [e] that no digit follows is not an exponent. *)
Definition exponent_of (s : string) : Z * string :=
  match s with
  | String c r =>
      if Ascii.eqb c "e" || Ascii.eqb c "E" then
        let '(neg, r') := split_sign r in
        let '(v, n, rest) := digits_from 0 0 r' in
        if n =? 0 then (0, s) else ((if neg then - v else v), rest)
      else (0, s)
  | EmptyString => (0, s)
  end.

(** The float nearest to [(-1)^s * m * 10^e]. *)
Definition of_decimal (s : bool) (m e : Z) : float :=
  match m with
  | Z.pos p =>
      if 0 <=? e
      then SF2Prim (binary_normalize prec emax
                      ((if s then -1 else 1) * (Z.pos p * 10 ^ e)) 0 s)
      else of_ratio s p (Z.to_pos (10 ^ (- e)))
  | _ => SF2Prim (S754_zero s)
  end.

(** A decimal literal: digits, an optional point and digits, at least one
    digit in all, an optional exponent, and nothing after. *)
Definition number_of (neg : bool) (s : string) : option float :=
  let '(i, ni, r1) := digits_from 0 0 s in
  let '(m, nf, r2) :=
    match r1 with
    | String "." r => digits_from i 0 r
    | _ => (i, 0, r1)
    end in
  if ni + nf =? 0 then None
  else
    let '(e, r3) := exponent_of r2 in
    if Str.is_empty r3 then Some (of_decimal neg m (e - nf)) else None.

Definition inf_or_nan_of (neg : bool) (s : string) : option float :=
  let w := Str.lower s in
  if String.eqb w "inf" || String.eqb w "infinity"
  then Some (if neg then neg_infinity else infinity)
  else if String.eqb w "nan" then Some nan
  else None.

(** [float(s)]; [None] stands for [ValueError]. *)
Definition of_string (s : string) : option float :=
  let t := rtrim (ltrim s) in
  if underscores_ok None t then
    let '(neg, body) := split_sign (Str.remove_char "_" t) in
    match number_of neg body with
    | Some x => Some x
    | None => inf_or_nan_of neg body
    end
  else None.

End PyFloat.

(** ** Python values and exceptions *)

(** What [resp.json()] can return. A [dict] keeps its items as a list of
    pairs; a key is looked up from the head. *)
#[warnings="-register-all"] Inductive pyval : Type :=
| PNone
| PBool (b : bool)
| PInt (z : Z)
| PFloat (f : float)
| PStr (s : string)
| PList (l : list pyval)
| PDict (items : list (string * pyval)).

(** The exceptions the pipeline can meet. [UpstreamError] stands for
    whatever a failed request to a service raises ([requests] and client
    errors, and the errors of walking a malformed response inside the same
    [try] block); all but [HTTPException] are caught by [except Exception]
    handlers in the same way. *)
Inductive exn : Type :=
| HTTPException (status_code : Z) (detail : string)
| TypeError
| ValueError
| KeyError
| AttributeError
| OverflowError
| UpstreamError.

Inductive res (A : Type) : Type :=
| Ok (a : A)
| Raise (e : exn).
Arguments Ok {A} a.
Arguments Raise {A} e.

#[global] Instance res_ret : MRet res := fun A a => Ok a.
#[global] Instance res_bind : MBind res := fun A B f m =>
  match m with
  | Ok a => f a
  | Raise e => Raise e
  end.
#[global] Instance res_fmap : FMap res := fun A B f m =>
  match m with
  | Ok a => Ok (f a)
  | Raise e => Raise e
  end.

Module Py.

(** [bool(v)] *)
Definition truthy (v : pyval) : bool :=
  match v with
  | PNone => false
  | PBool b => b
  | PInt z => negb (z =? 0)
  | PFloat f => negb (PrimFloat.eqb f 0)
  | PStr s => negb (Str.is_empty s)
  | PList l => match l with [] => false | _ => true end
  | PDict items => match items with [] => false | _ => true end
  end.

(** [a or b] *)
Definition or_else (a b : pyval) : pyval := if truthy a then a else b.

Fixpoint assoc (k : string) (items : list (string * pyval)) : option pyval :=
  match items with
  | [] => None
  | (k', v) :: rest => if String.eqb k k' then Some v else assoc k rest
  end.

(** [d[k]] for a string [k]: only a [dict] can be indexed by a string. *)
Definition getitem (d : pyval) (k : string) : res pyval :=
  match d with
  | PDict items =>
      match assoc k items with
      | Some v => Ok v
      | None => Raise KeyError
      end
  | _ => Raise TypeError
  end.

(** [d.get(k, default)]: only a [dict] has the method. *)
Definition get_default (d : pyval) (k : string) (default : pyval) : res pyval :=
  match d with
  | PDict items =>
      match assoc k items with
      | Some v => Ok v
      | None => Ok default
      end
  | _ => Raise AttributeError
  end.

(** [d.get(k)] *)
Definition get (d : pyval) (k : string) : res pyval := get_default d k PNone.

(** [float(v)] *)
Definition to_float (v : pyval) : res float :=
  match v with
  | PBool b => Ok (if b then 1 else 0)%float
  | PInt z =>
      match PyFloat.of_Z z with
      | Some f => Ok f
      | None => Raise OverflowError
      end
  | PFloat f => Ok f
  | PStr s =>
      match PyFloat.of_string s with
      | Some f => Ok f
      | None => Raise ValueError
      end
  | PNone | PList _ | PDict _ => Raise TypeError
  end.

(** [v > 0] *)
Definition gt_zero (v : pyval) : res bool :=
  match v with
  | PBool b => Ok b
  | PInt z => Ok (0 <? z)
  | PFloat f => Ok (PrimFloat.ltb 0 f)
  | _ => Raise TypeError
  end.

(** [v >= 0] *)
Definition ge_zero (v : pyval) : res bool :=
  match v with
  | PBool b => Ok true
  | PInt z => Ok (0 <=? z)
  | PFloat f => Ok (PrimFloat.leb 0 f)
  | _ => Raise TypeError
  end.

(** [v.lower().strip()]: only a [str] has the methods. *)
Definition lower_strip (v : pyval) : res string :=
  match v with
  | PStr s => Ok (Str.strip (Str.lower s))
  | _ => Raise AttributeError
  end.

(** [v.strip()] *)
Definition strip (v : pyval) : res string :=
  match v with
  | PStr s => Ok (Str.strip s)
  | _ => Raise AttributeError
  end.

(** [v[:n]]: a prefix of a [str] or of a [list]; a [dict] has no slices
    and the other values cannot be indexed. *)
Definition slice_to (n : nat) (v : pyval) : res pyval :=
  match v with
  | PStr s => Ok (PStr (Str.prefix n s))
  | PList l => Ok (PList (firstn n l))
  | _ => Raise TypeError
  end.

Fixpoint chars (s : string) : list pyval :=
  match s with
  | EmptyString => []
  | String c s' => PStr (String c EmptyString) :: chars s'
  end.

(** The items [for x in v] runs over: the elements of a [list], the
    characters of a [str], the keys of a [dict]; nothing else that JSON
    yields can be iterated. *)
Definition iter (v : pyval) : res (list pyval) :=
  match v with
  | PList l => Ok l
  | PStr s => Ok (chars s)
  | PDict items => Ok (List.map (fun kv => PStr (fst kv)) items)
  | _ => Raise TypeError
  end.

(** [x in l] for a list of strings *)
Definition str_in (x : string) (l : list string) : bool :=
  existsb (String.eqb x) l.

End Py.


(** ** Data models *)

(** [class Review(BaseModel)], and the dict [fetch_reviews] builds with the
    same four keys. [text] is a [str] by construction and [rating] a [float];
    [course] and [date] hold the values the code puts there. *)
Module Review.
Record t : Type := mk {
  rating : float;
  text : string;
  course : pyval;
  date : pyval
}.
End Review.

(** [class ProfessorData(BaseModel)]. [numRatings] and [department] hold the
    candidate's values as they are handed to the constructor. *)
Module ProfessorData.
Record t : Type := mk {
  name : string;
  rating : float;
  difficulty : option float;
  wouldTakeAgain : option float;
  numRatings : pyval;
  department : pyval;
  summary : string;
  reviews : list Review.t
}.
End ProfessorData.

(** ** RMP GraphQL helpers: the parts that run on the decoded response *)

Definition UWT_SCHOOL_ID : string := "U2Nob29sLTQ3NDQ=".

(** [[e["node"] for e in edges if e["node"]["numRatings"] > 0]] *)
Fixpoint rated_nodes (edges : list pyval) : res (list pyval) :=
  match edges with
  | [] => Ok []
  | e :: rest =>
      node ← Py.getitem e "node";
      n ← Py.getitem node "numRatings";
      keep ← Py.gt_zero n;
      tail ← rated_nodes rest;
      Ok (if keep : bool then node :: tail else tail)
  end.

(** The loop [for prof in rated: ...] of [search_professor]. *)
Fixpoint first_match (name_parts : list string) (rated : list pyval)
  : res (option pyval) :=
  match rated with
  | [] => Ok None
  | prof :: rest =>
      f ← Py.getitem prof "firstName";
      first ← Py.lower_strip f;
      l ← Py.getitem prof "lastName";
      last ← Py.lower_strip l;
      if Py.str_in last name_parts && Py.str_in first name_parts
      then Ok (Some prof)
      else first_match name_parts rest
  end.

(** [search_professor] from [if not edges] to its last line: the choice of
    a candidate among the [edges] of the search response. [None] is Python's
    [None]. *)
Definition search_professor_match (name : string) (edges : pyval)
  : res (option pyval) :=
  if negb (Py.truthy edges) then Ok None
  else
    items ← Py.iter edges;
    rated ← rated_nodes items;
    match rated with
    | [] => Ok None
    | _ => first_match (Str.split (Str.lower name)) rated
    end.

(** One turn of the loop [for edge in edges] of [fetch_reviews]: the review
    it appends, or [None] when it [continue]s. *)
Definition review_of_edge (edge : pyval) : res (option Review.t) :=
  node ← Py.getitem edge "node";
  c ← Py.get node "comment";
  comment ← Py.strip (Py.or_else c (PStr ""));
  if Str.is_empty comment then Ok None
  else
    raw_date ← Py.get_default node "date" (PStr "");
    short_date ← (if Py.truthy raw_date then Py.slice_to 10 raw_date
                  else Ok PNone);
    q ← Py.get node "qualityRating";
    rating ← Py.to_float (Py.or_else q (PInt 0));
    cls ← Py.get node "class";
    Ok (Some (Review.mk rating comment (Py.or_else cls PNone) short_date)).

Fixpoint reviews_of_edges (edges : list pyval) : res (list Review.t) :=
  match edges with
  | [] => Ok []
  | edge :: rest =>
      r ← review_of_edge edge;
      tail ← reviews_of_edges rest;
      Ok (match r with Some review => review :: tail | None => tail end)
  end.

(** [fetch_reviews] from [reviews = []] to [return reviews]. *)
Definition fetch_reviews_clean (edges : pyval) : res (list Review.t) :=
  items ← Py.iter edges;
  reviews_of_edges items.

(** ** Claude AI helpers: the parts that do not call the client *)

Definition SYSTEM_PROMPT : string :=
  "You are a helpful assistant that summarizes Rate My Professor reviews for University of Washington Tacoma professors."
  ++ Str.newline ++ Str.newline ++
  "Given a list of student reviews, write a 2-3 sentence summary that:"
  ++ Str.newline ++
  "- Highlights the professor's main strengths mentioned by students"
  ++ Str.newline ++
  "- Mentions any consistent complaints or weaknesses"
  ++ Str.newline ++
  "- Notes teaching style if mentioned (e.g. lecture-heavy, project-based, etc.)"
  ++ Str.newline ++
  "- Stays neutral and factual — do not exaggerate positives or negatives"
  ++ Str.newline ++
  "- Is written for a student deciding whether to take this professor"
  ++ Str.newline ++ Str.newline ++
  "Keep the summary under 60 words. Do not use bullet points. Write in plain paragraph form.".

Definition MODERATOR_PROMPT : string :=
  "You are a content moderator. Reply with only 'YES' if the text contains hate speech, personal attacks, slurs, or clearly inappropriate content. Reply with only 'NO' otherwise.".

Definition _fallback_summary (review_texts : list string) : string :=
  match review_texts with
  | [] => "No reviews available to summarize."
  | _ =>
      let count := length review_texts in
      "Based on " ++ Str.of_nat count ++ " student review"
      ++ (if Nat.eqb count 1 then "" else "s")
      ++ " from Rate My Professor. "
      ++ "See individual reviews below for details."
  end.

(** [[f"{i+1}. \"{text}\"" for i, text in enumerate(review_texts)]],
    counting from [i]. *)
Fixpoint numbered_from (i : nat) (review_texts : list string) : list string :=
  match review_texts with
  | [] => []
  | text :: rest =>
      (Str.of_nat (i + 1) ++ ". " ++ Str.dquote ++ text ++ Str.dquote)
      :: numbered_from (S i) rest
  end.

Definition user_message (review_texts : list string) : string :=
  "Here are the student reviews:" ++ Str.newline ++ Str.newline
  ++ Str.join Str.newline (numbered_from 0 review_texts)
  ++ Str.newline ++ Str.newline ++ "Please summarize these reviews.".

(** ** In-memory cache *)

Definition _cache_key (name : string) : string :=
  Str.collapse_ws (Str.lower (Str.strip name)).

(** ** The outside world *)

(** The arguments of [anthropic_client.messages.create]; [content] is the
    text of the single user message. *)
Record request : Type := {
  model : string;
  max_tokens : Z;
  system : string;
  content : string
}.

(** A call that leaves the process. *)
Inductive call : Type :=
| SearchCall (text school_id : string)
| ReviewsCall (professor_id : pyval) (count : Z)
| MessagesCall (req : request).

(** How the outside answers, given the calls made before.
    - [search_response h text school] is the value of
      [resp.json()["data"]["newSearch"]["teachers"]["edges"]] for the search
      query built from [text] and [school], or [None] when anything inside
      that [try] block raises.
    - [reviews_response h id count] is likewise
      [resp.json()["data"]["node"]["ratings"]["edges"]] or a failure.
    - [anthropic_client] is [None] when no API key is configured; otherwise
      it gives [response.content[0].text] for a request, or [None] when the
      call or the access raises. *)
Record services : Type := {
  search_response : list call -> string -> string -> option pyval;
  reviews_response : list call -> pyval -> Z -> option pyval;
  anthropic_client : option (list call -> request -> option string)
}.

(** The process state: the module-level dict [_cache] and the calls made so
    far. *)
Record state : Type := {
  _cache : gmap string ProfessorData.t;
  calls : list call
}.

(** Computations that may raise and that read and write the state. A raise
    keeps the state reached so far. *)
Definition M (A : Type) : Type := state -> res A * state.

Definition ret {A} (a : A) : M A := fun st => (Ok a, st).

Definition raise {A} (e : exn) : M A := fun st => (Raise e, st).

Definition bind {A B} (m : M A) (k : A -> M B) : M B :=
  fun st =>
    match m st with
    | (Ok a, st') => k a st'
    | (Raise e, st') => (Raise e, st')
    end.

Definition lift {A} (r : res A) : M A := fun st => (r, st).

(** [try: body  except Exception: handler] *)
Definition try_except {A} (body : M A) (handler : exn -> M A) : M A :=
  fun st =>
    match body st with
    | (Ok a, st') => (Ok a, st')
    | (Raise e, st') => handler e st'
    end.

Declare Scope M_scope.
Delimit Scope M_scope with M.
Notation "'let*' x := m 'in' k" := (bind m (fun x => k))
  (at level 10, x name, m at level 100, k at level 200) : M_scope.
Notation "m ;;; k" := (bind m (fun _ => k))
  (at level 100, k at level 200, right associativity) : M_scope.

(** The answer [a] of the outside to call [c], made now. *)
Definition perform {A} (c : call) (answer : list call -> option A) : M A :=
  fun st =>
    let st' := {| _cache := _cache st; calls := calls st ++ [c] |} in
    match answer (calls st) with
    | Some a => (Ok a, st')
    | None => (Raise UpstreamError, st')
    end.

Definition cache_get (key : string) : M (option ProfessorData.t) :=
  fun st => (Ok (_cache st !! key), st).

Definition cache_set (key : string) (result : ProfessorData.t) : M unit :=
  fun st => (Ok tt, {| _cache := <[key := result]> (_cache st); calls := calls st |}).

(** [[x for x in l if not p(x)]], the tests made from left to right. *)
Fixpoint reject {A} (p : A -> M bool) (l : list A) : M (list A) :=
  match l with
  | [] => ret []
  | x :: rest =>
      (let* b := p x in
       let* kept := reject p rest in
       ret (if b : bool then kept else x :: kept))%M
  end.

(** The first test of [get_professor]: [not name or not name.strip()]. *)
Definition name_missing (name : string) : bool :=
  Str.is_empty name || Str.is_empty (Str.strip name).

Section Pipeline.

Variable svc : services.

Local Open Scope M_scope.

(** *** [search_professor] *)
Definition search_professor (name : string) : M (option pyval) :=
  let text := Str.remove_char (ascii_of_N 34) name in
  let* edges :=
    try_except
      (let* edges :=
         perform (SearchCall text UWT_SCHOOL_ID)
                 (fun h => search_response svc h text UWT_SCHOOL_ID) in
       ret (Some edges))
      (fun _ => ret None) in
  match edges with
  | None => ret None
  | Some edges => lift (search_professor_match name edges)
  end.

(** *** [fetch_reviews] *)
Definition fetch_reviews (professor_id : pyval) (count : Z) : M (list Review.t) :=
  let* edges :=
    try_except
      (let* edges :=
         perform (ReviewsCall professor_id count)
                 (fun h => reviews_response svc h professor_id count) in
       ret (Some edges))
      (fun _ => ret None) in
  match edges with
  | None => ret []
  | Some edges => lift (fetch_reviews_clean edges)
  end.

(** [anthropic_client.messages.create(...)] followed by
    [response.content[0].text], on a configured client. *)
Definition messages_create (client : list call -> request -> option string)
    (req : request) : M string :=
  perform (MessagesCall req) (fun h => client h req).

(** *** [is_abusive] *)
Definition is_abusive (text : string) : M bool :=
  match anthropic_client svc with
  | None => ret false
  | Some client =>
      try_except
        (let* response :=
           messages_create client
             {| model := "claude-haiku-4-5-20251001";
                max_tokens := 10;
                system := MODERATOR_PROMPT;
                content := Str.prefix 512 text |} in
         let result := Str.upper (Str.strip response) in
         if String.eqb result "YES" then ret true else ret false)
        (fun _ => ret false)
  end.

(** *** [summarize_reviews] *)
Definition summarize_reviews (review_texts : list string) : M string :=
  match anthropic_client svc, review_texts with
  | None, _ | _, [] => ret (_fallback_summary review_texts)
  | Some client, _ =>
      try_except
        (let* response :=
           messages_create client
             {| model := "claude-haiku-4-5-20251001";
                max_tokens := 150;
                system := SYSTEM_PROMPT;
                content := user_message review_texts |} in
         ret (Str.strip response))
        (fun _ => ret (_fallback_summary review_texts))
  end.

(** *** [get_professor], step 5: the [ProfessorData(...)] expression.

    The two names have gone through [.lower()] in [search_professor], so
    they are [str] when this runs; the model formats no other value. *)
Definition as_text (v : pyval) : res string :=
  match v with
  | PStr s => Ok s
  | _ => Raise TypeError
  end.

Definition build_response (prof : pyval) (summary : string)
    (clean_reviews : list Review.t) : res ProfessorData.t :=
  first ← Py.getitem prof "firstName" ≫= as_text;
  last ← Py.getitem prof "lastName" ≫= as_text;
  rating ← Py.getitem prof "rating" ≫= Py.to_float;
  d ← Py.get prof "difficulty";
  difficulty ←
    (if Py.truthy d
     then x ← Py.getitem prof "difficulty" ≫= Py.to_float;
          Ok (Some (PyFloat.round1 x))
     else Ok None);
  w ← Py.get prof "wouldTakeAgainPercent";
  known ←
    (if Py.truthy w
     then Py.getitem prof "wouldTakeAgainPercent" ≫= Py.ge_zero
     else Ok false);
  wouldTakeAgain ←
    (if known : bool
     then x ← Py.getitem prof "wouldTakeAgainPercent" ≫= Py.to_float;
          Ok (Some (PyFloat.round1 x))
     else Ok None);
  numRatings ← Py.getitem prof "numRatings";
  department ← Py.get prof "department";
  Ok (ProfessorData.mk (first ++ " " ++ last) (PyFloat.round1 rating)
        difficulty wouldTakeAgain numRatings department summary
        clean_reviews).

(** *** [get_professor] *)
Definition get_professor (name : string) : M ProfessorData.t :=
  if name_missing name
  then raise (HTTPException 400 "Professor name is required.")
  else
    let key := _cache_key name in
    let* hit := cache_get key in
    match hit with
    | Some result => ret result
    | None =>
        let* prof := search_professor name in
        match prof with
        | None =>
            raise (HTTPException 404
                     ("No professor found for '" ++ name ++ "' at UW Tacoma."))
        | Some prof =>
            if negb (Py.truthy prof)
            then raise (HTTPException 404
                          ("No professor found for '" ++ name ++ "' at UW Tacoma."))
            else
              let* professor_id := lift (Py.getitem prof "id") in
              let* raw_reviews := fetch_reviews professor_id 5 in
              let* clean_reviews :=
                reject (fun r => is_abusive (Review.text r)) raw_reviews in
              let* summary :=
                summarize_reviews (List.map Review.text clean_reviews) in
              let* result := lift (build_response prof summary clean_reviews) in
              cache_set key result ;;;
              ret result
        end
    end.

End Pipeline.

(** ** Vocabulary of the properties *)

(** *** Typed views of the upstream records

    The specification describes candidates and raw reviews as records with
    optional fields. A field of the JSON object can be missing, [null], or
    hold a value. *)

Inductive field (A : Type) : Type :=
| Missing
| Null
| Value (a : A).
Arguments Missing {A}.
Arguments Null {A}.
Arguments Value {A} a.

(** A JSON number: Python reads it as an [int] or as a [float]. *)
Inductive number : Type :=
| Int (z : Z)
| Float (f : float).

Definition encode_number (n : number) : pyval :=
  match n with
  | Int z => PInt z
  | Float f => PFloat f
  end.

(** The item of a JSON object for field [k], if any. *)
Definition item {A} (k : string) (enc : A -> pyval) (x : field A)
  : list (string * pyval) :=
  match x with
  | Missing => []
  | Null => [(k, PNone)]
  | Value a => [(k, enc a)]
  end.

Definition field_value {A} (x : field A) : option A :=
  match x with
  | Value a => Some a
  | _ => None
  end.

Module Candidate.
Record t : Type := mk {
  id : string;
  firstName : string;
  lastName : string;
  rating : field number;
  difficulty : field number;
  wouldTakeAgainPercent : field number;
  numRatings : Z;
  department : field string
}.

(** The [node] of a search result. *)
Definition encode (c : t) : pyval :=
  PDict ([("id", PStr (id c));
          ("firstName", PStr (firstName c));
          ("lastName", PStr (lastName c))]
         ++ item "rating" encode_number (rating c)
         ++ item "difficulty" encode_number (difficulty c)
         ++ item "wouldTakeAgainPercent" encode_number (wouldTakeAgainPercent c)
         ++ [("numRatings", PInt (numRatings c))]
         ++ item "department" PStr (department c)).

Definition edge (c : t) : pyval := PDict [("node", encode c)].
End Candidate.

Module RawReview.
Record t : Type := mk {
  commentText : field string;
  qualityRating : field number;
  courseLabel : field string;
  dateText : field string
}.

Definition encode (r : t) : pyval :=
  PDict (item "comment" PStr (commentText r)
         ++ item "qualityRating" encode_number (qualityRating r)
         ++ item "class" PStr (courseLabel r)
         ++ item "date" PStr (dateText r)).

Definition edge (r : t) : pyval := PDict [("node", encode r)].
End RawReview.

(** *** NameMatcher, as the specification words it *)

(** The whitespace tokens of the query, case-insensitive. *)
Definition name_tokens (queryName : string) : list string :=
  Str.split (Str.lower queryName).

(** Both names of [c], trimmed and lowercased, are whole tokens. *)
Definition confident (tokens : list string) (c : Candidate.t) : bool :=
  Py.str_in (Str.lower (Str.strip (Candidate.firstName c))) tokens
  && Py.str_in (Str.lower (Str.strip (Candidate.lastName c))) tokens.

Definition rated (c : Candidate.t) : bool := 0 <? Candidate.numRatings c.

(** Discard the candidates with [numRatings <= 0]; return the first of the
    others, in input order, that matches. *)
Definition NameMatcher (queryName : string) (candidates : list Candidate.t)
  : option Candidate.t :=
  List.find (confident (name_tokens queryName)) (List.filter rated candidates).

(** *** ReviewSanitizer on typed reviews *)

(** An integer rating that [float] can represent. *)
Definition number_fits (n : number) : bool :=
  match n with
  | Int z => match PyFloat.of_Z z with Some _ => true | None => false end
  | Float _ => true
  end.

Definition rating_fits (r : RawReview.t) : bool :=
  match RawReview.qualityRating r with
  | Value n => number_fits n
  | _ => true
  end.

(** The rating: the number as a float, and 0 when the field is missing,
    [null] or a zero. *)
Definition rating_of (q : field number) : float :=
  match q with
  | Value (Int z) =>
      match PyFloat.of_Z z with Some f => f | None => 0%float end
  | Value (Float f) => if PrimFloat.eqb f 0 then 0%float else f
  | _ => 0%float
  end.

Definition nonempty_or_none (x : field string) (f : string -> string) : pyval :=
  match x with
  | Value s => if Str.is_empty s then PNone else PStr (f s)
  | _ => PNone
  end.

Definition sanitize (r : RawReview.t) : option Review.t :=
  let text :=
    Str.strip (match RawReview.commentText r with Value s => s | _ => EmptyString end) in
  if Str.is_empty text then None
  else Some (Review.mk (rating_of (RawReview.qualityRating r)) text
               (nonempty_or_none (RawReview.courseLabel r) (fun s => s))
               (nonempty_or_none (RawReview.dateText r) (Str.prefix 10))).

(** An edge of a review response whose comment is missing, [null], empty or
    all whitespace. *)
Definition blank_comment (edge : pyval) : Prop :=
  exists node c s,
    Py.getitem edge "node" = Ok node /\ Py.get node "comment" = Ok c /\
    Py.or_else c (PStr EmptyString) = PStr s /\ Str.all_space s = true.

(** *** Outcomes of a resolution *)

Definition is_not_found (r : res ProfessorData.t) : bool :=
  match r with
  | Raise (HTTPException 404 _) => true
  | _ => false
  end.

(** [n] resolutions of the same name, one after the other. *)
Fixpoint resolve_times (svc : services) (name : string) (n : nat) (st : state)
  : list (res ProfessorData.t) * state :=
  match n with
  | O => ([], st)
  | S n' =>
      let '(r, st1) := get_professor svc name st in
      let '(rs, st2) := resolve_times svc name n' st1 in
      (r :: rs, st2)
  end.

(** A value that is present and exactly zero. *)
Definition is_zero (v : pyval) : bool :=
  match v with
  | PInt z => z =? 0
  | PFloat f => PrimFloat.eqb f 0
  | _ => false
  end.

(** An exception other than [HTTPException]. *)
Definition plain (e : exn) : Prop :=
  match e with
  | HTTPException _ _ => False
  | _ => True
  end.

Definition res_plain {A} (r : res A) : Prop :=
  match r with
  | Raise e => plain e
  | Ok _ => True
  end.

(** A computation that raises no [HTTPException]. *)
Definition M_plain {A} (m : M A) : Prop :=
  forall st, res_plain (fst (m st)).

(** A computation that always returns. *)
Definition returns {A} (m : M A) : Prop :=
  forall st, exists a st', m st = (Ok a, st').

(** [get_professor] from step 2 on, for the professor [prof] found under
    the cache key [key]; [get_professor_unfold] shows that this is what
    [get_professor] runs there. *)
Definition found_steps (svc : services) (key : string) (prof : pyval)
  : M ProfessorData.t :=
  (let* professor_id := lift (Py.getitem prof "id") in
   let* raw_reviews := fetch_reviews svc professor_id 5 in
   let* clean_reviews :=
     reject (fun r => is_abusive svc (Review.text r)) raw_reviews in
   let* summary :=
     summarize_reviews svc (List.map Review.text clean_reviews) in
   let* result := lift (build_response prof summary clean_reviews) in
   cache_set key result ;;;
   ret result)%M.

(** The request [is_abusive] sends for [text]. *)
Definition moderation_request (text : string) : request :=
  {| model := "claude-haiku-4-5-20251001";
     max_tokens := 10;
     system := MODERATOR_PROMPT;
     content := Str.prefix 512 text |}.

(** The request [summarize_reviews] sends for [review_texts]. *)
Definition summary_request (review_texts : list string) : request :=
  {| model := "claude-haiku-4-5-20251001";
     max_tokens := 150;
     system := SYSTEM_PROMPT;
     content := user_message review_texts |}.

Definition not_found (name : string) : exn :=
  HTTPException 404 ("No professor found for '" ++ name ++ "' at UW Tacoma.").

Definition search_call (name : string) : call :=
  SearchCall (Str.remove_char (ascii_of_N 34) name) UWT_SCHOOL_ID.

Definition log (c : call) (st : state) : state :=
  {| _cache := _cache st; calls := calls st ++ [c] |}.

(** *** A small world to run the pipeline in *)

Module Example.

Definition jane : Candidate.t :=
  Candidate.mk "VGVhY2hlci0x" "Jane" "Doe" (Value (Float 4.25)) (Value (Int 0))
    (Value (Int 0)) 12 (Value "Computer Science").

Definition unrated : Candidate.t :=
  Candidate.mk "VGVhY2hlci0y" "Jane" "Doe" Null Null Null 0 Null.

Definition empty_review : RawReview.t :=
  RawReview.mk (Value "   ") (Value (Int 5)) (Value "TCSS142") Missing.

Definition good_review : RawReview.t :=
  RawReview.mk (Value "Great lectures, tough exams") Null Missing
    (Value "2024-01-05 12:00:00 +0000 UTC").

(** A review whose rating is the text [N/A]. *)
Definition unrated_review : pyval :=
  PDict [("node", PDict [("comment", PStr "Great lectures");
                         ("qualityRating", PStr "N/A")])].

Definition world (client : option (list call -> request -> option string))
  : services :=
  {| search_response := fun _ _ _ =>
       Some (PList [Candidate.edge unrated; Candidate.edge jane]);
     reviews_response := fun _ _ _ =>
       Some (PList [RawReview.edge empty_review; RawReview.edge good_review]);
     anthropic_client := client |}.

(** A client whose every answer is a blank text. *)
Definition blank_client : list call -> request -> option string :=
  fun _ _ => Some "  ".

Definition start : state := {| _cache := ∅; calls := [] |}.

End Example.


(** A computation that never writes the cache. *)
Definition keeps_cache {A} (m : M A) : Prop :=
  forall st, _cache (snd (m st)) = _cache st.


(** ** Vocabulary of the further properties *)

(** [s] has no whitespace character. *)
Fixpoint no_space (s : string) : bool :=
  match s with
  | EmptyString => true
  | String c s' => negb (Str.is_space c) && no_space s'
  end.

(** A word: not empty and without whitespace. *)
Definition is_token (s : string) : bool := negb (Str.is_empty s) && no_space s.

(** Every token of [a] is a token of [b] and conversely. *)
Definition same_token_set (a b : list string) : bool :=
  forallb (fun x => Py.str_in x b) a && forallb (fun x => Py.str_in x a) b.

(** Services that are all down, and no model client. *)
Definition offline : services :=
  {| search_response := fun _ _ _ => None;
     reviews_response := fun _ _ _ => None;
     anthropic_client := None |}.

(** Every key of the cache is a cache key: not empty and its own key. *)
Definition keys_normal (st : state) : Prop :=
  forall k, is_Some (_cache st !! k) -> _cache_key k = k /\ k <> EmptyString.

(** The search service answers as in [Example.world]; the review service is
    down; [client] is the model client. *)
Definition reviews_down (client : option (list call -> request -> option string))
  : services :=
  {| search_response := search_response (Example.world None);
     reviews_response := fun _ _ _ => None;
     anthropic_client := client |}.

(** A client that answers YES to every request. *)
Definition yes_client : list call -> request -> option string :=
  fun _ _ => Some "yes".

(** The answer of the classifier reads YES: the test of [is_abusive] on
    [response.content[0].text], with a failed call counting as no answer. *)
Definition flagged (answer : option string) : bool :=
  match answer with
  | Some r => String.eqb (Str.upper (Str.strip r)) "YES"
  | None => false
  end.

(** The moderation requests for a list of reviews, in order. *)
Definition moderation_calls (reviews : list Review.t) : list call :=
  List.map (fun r => MessagesCall (moderation_request (Review.text r))) reviews.

(** The reviews that [client] does not flag, asked one review after the
    other from the history [h] on. *)
Fixpoint moderate (client : list call -> request -> option string)
    (h : list call) (reviews : list Review.t) : list Review.t :=
  match reviews with
  | [] => []
  | r :: rest =>
      let req := moderation_request (Review.text r) in
      let kept := moderate client (h ++ [MessagesCall req]) rest in
      if flagged (client h req) then kept else r :: kept
  end.

(** What the sanitizing loop lets through as a date: nothing, or a
    non-empty slice of at most 10 items. *)
Definition date_ok (d : pyval) : bool :=
  match d with
  | PNone => true
  | PStr s => negb (Str.is_empty s) && (String.length s <=? 10)%nat
  | PList l => match l with [] => false | _ => (length l <=? 10)%nat end
  | _ => false
  end.

(** What it lets through as a course: nothing, or a truthy value. *)
Definition course_ok (c : pyval) : bool :=
  match c with
  | PNone => true
  | v => Py.truthy v
  end.

(** A review with a trimmed, non-empty text, and a date and a course as
    above. *)
Definition review_ok (r : Review.t) : bool :=
  negb (Str.is_empty (Review.text r))
  && String.eqb (Str.strip (Review.text r)) (Review.text r)
  && date_ok (Review.date r)
  && course_ok (Review.course r).

(** Every record of the cache has reviews that are [review_ok]. *)
Definition cache_ok (st : state) : Prop :=
  forall k record,
    _cache st !! k = Some record ->
    Forall (fun r => review_ok r = true) (ProfessorData.reviews record).

(** [float(n)] for a JSON number. *)
Definition number_float (n : number) : float :=
  match n with
  | Int z => match PyFloat.of_Z z with Some f => f | None => 0%float end
  | Float f => f
  end.

(** A field that, where it holds a number, holds one [float] accepts. *)
Definition field_fits (x : field number) : bool :=
  match x with
  | Value n => number_fits n
  | _ => true
  end.

(** What [d[k]] finds for a field of a node. *)
Definition field_item (x : field number) : res pyval :=
  match x with
  | Missing => Raise KeyError
  | Null => Ok PNone
  | Value n => Ok (encode_number n)
  end.

(** [c] occurs in [s]. *)
Fixpoint has_char (c : ascii) (s : string) : bool :=
  match s with
  | EmptyString => false
  | String d s' => Ascii.eqb c d || has_char c s'
  end.

(** ** Start-up and the health endpoint *)

(** [anthropic_client = Anthropic(api_key=ANTHROPIC_API_KEY) if
    ANTHROPIC_API_KEY else None], for the client [client] that the
    constructor returns. *)
Definition anthropic_client_of (ANTHROPIC_API_KEY : string)
    (client : list call -> request -> option string)
  : option (list call -> request -> option string) :=
  if Py.truthy (PStr ANTHROPIC_API_KEY) then Some client else None.

(** [health_check] *)
Definition health_check (ANTHROPIC_API_KEY : string) : pyval :=
  PDict [("status", PStr "healthy");
         ("school", PStr "UW Tacoma");
         ("claude_configured", PBool (Py.truthy (PStr ANTHROPIC_API_KEY)))].

(** * Properties *)

(** ** Strings *)

Module StrFacts.
Import Str.

Lemma is_empty_true s : is_empty s = true <-> s = EmptyString.
Proof. destruct s; simpl; split; congruence. Qed.

Lemma is_empty_false s : is_empty s = false <-> s <> EmptyString.
Proof. destruct s; simpl; split; congruence. Qed.

Lemma lstrip_all_space s : Str.all_space s = true -> lstrip s = EmptyString.
Proof.
  induction s as [|c s IH]; simpl; [reflexivity|].
  intros [Hc Hs]%andb_prop. rewrite Hc. auto.
Qed.

Lemma lstrip_empty_all_space s : lstrip s = EmptyString -> Str.all_space s = true.
Proof.
  induction s as [|c s IH]; simpl; [reflexivity|].
  destruct (is_space c); simpl; [exact IH | discriminate].
Qed.

Lemma rstrip_empty s : rstrip s = EmptyString -> Str.all_space s = true.
Proof.
  induction s as [|c s IH]; simpl; [reflexivity|].
  destruct (is_space c); simpl; [|discriminate].
  destruct (rstrip s); simpl; [auto | discriminate].
Qed.

Lemma lstrip_head s c r : lstrip s = String c r -> is_space c = false.
Proof.
  induction s as [|d s IH]; simpl; [discriminate|].
  destruct (is_space d) eqn:Hd; [exact IH|].
  intros [= <- _]. exact Hd.
Qed.

(** [s.strip()] is empty exactly when [s] is empty or all whitespace. *)
Lemma strip_empty_iff s : strip s = EmptyString <-> Str.all_space s = true.
Proof.
  unfold strip. split.
  - intros H. apply rstrip_empty in H.
    destruct (lstrip s) as [|c r] eqn:Hl.
    + now apply lstrip_empty_all_space.
    + apply lstrip_head in Hl. simpl in H. rewrite Hl in H. discriminate.
  - intros H. now rewrite lstrip_all_space.
Qed.

Lemma map_chars_empty f s : map_chars f s = EmptyString -> s = EmptyString.
Proof. destruct s; simpl; [reflexivity | discriminate]. Qed.

Lemma collapse_ws_empty s : collapse_ws s = EmptyString -> s = EmptyString.
Proof.
  unfold collapse_ws. destruct s as [|c s]; simpl; [reflexivity|].
  destruct (is_space c); discriminate.
Qed.

End StrFacts.

(** The key of a name that passes the first test of [get_professor] is not
    empty. *)
Lemma _cache_key_empty name :
  _cache_key name = EmptyString -> Str.strip name = EmptyString.
Proof.
  unfold _cache_key. intros H.
  apply StrFacts.collapse_ws_empty in H.
  now apply StrFacts.map_chars_empty in H.
Qed.

Lemma name_missing_iff name :
  name_missing name = true <-> Str.strip name = EmptyString.
Proof.
  unfold name_missing. rewrite orb_true_iff, !StrFacts.is_empty_true.
  split; [|auto]. intros [-> | H]; [reflexivity | exact H].
Qed.

(** ** The state monad *)

Lemma bind_inv {A B} (m : M A) (k : A -> M B) st r st' :
  bind m k st = (r, st') ->
  (exists e, m st = (Raise e, st') /\ r = Raise e) \/
  (exists a st1, m st = (Ok a, st1) /\ k a st1 = (r, st')).
Proof.
  unfold bind. destruct (m st) as [[a|e] st1].
  - intros H. right. eauto.
  - intros [= <- <-]. left. eauto.
Qed.

Lemma keeps_cache_ret {A} (a : A) : keeps_cache (ret a).
Proof. intros st. reflexivity. Qed.

Lemma keeps_cache_raise {A} e : keeps_cache (@raise A e).
Proof. intros st. reflexivity. Qed.

Lemma keeps_cache_lift {A} (r : res A) : keeps_cache (lift r).
Proof. intros st. reflexivity. Qed.

Lemma keeps_cache_perform {A} c (answer : list call -> option A) :
  keeps_cache (perform c answer).
Proof. intros st. unfold perform. destruct (answer _); reflexivity. Qed.

Lemma keeps_cache_bind {A B} (m : M A) (k : A -> M B) :
  keeps_cache m -> (forall a, keeps_cache (k a)) -> keeps_cache (bind m k).
Proof.
  intros Hm Hk st. unfold bind. specialize (Hm st).
  destruct (m st) as [[a|e] st1]; simpl in *; [|exact Hm].
  now rewrite Hk.
Qed.

Lemma keeps_cache_try {A} (body : M A) handler :
  keeps_cache body -> (forall e, keeps_cache (handler e)) ->
  keeps_cache (try_except body handler).
Proof.
  intros Hm Hk st. unfold try_except. specialize (Hm st).
  destruct (body st) as [[a|e] st1]; simpl in *; [exact Hm|].
  now rewrite Hk.
Qed.

Lemma keeps_cache_reject {A} (p : A -> M bool) l :
  (forall x, keeps_cache (p x)) -> keeps_cache (reject p l).
Proof.
  intros Hp. induction l as [|x l IH]; simpl.
  - apply keeps_cache_ret.
  - apply keeps_cache_bind; [apply Hp|]. intros b.
    apply keeps_cache_bind; [exact IH|]. intros kept. apply keeps_cache_ret.
Qed.

Create HintDb cache.

#[local] Hint Resolve keeps_cache_ret keeps_cache_raise keeps_cache_lift
  keeps_cache_perform keeps_cache_bind keeps_cache_try keeps_cache_reject
  : cache.

Lemma keeps_cache_search svc name : keeps_cache (search_professor svc name).
Proof.
  unfold search_professor. apply keeps_cache_bind; [auto 6 with cache|].
  intros [edges|]; auto with cache.
Qed.

Lemma keeps_cache_fetch svc id count : keeps_cache (fetch_reviews svc id count).
Proof.
  unfold fetch_reviews. apply keeps_cache_bind; [auto 6 with cache|].
  intros [edges|]; auto with cache.
Qed.

Lemma keeps_cache_is_abusive svc text : keeps_cache (is_abusive svc text).
Proof.
  unfold is_abusive, messages_create.
  destruct (anthropic_client svc); [|auto with cache].
  apply keeps_cache_try; [|auto with cache].
  apply keeps_cache_bind; [auto with cache|].
  intros response. destruct (String.eqb _ _); auto with cache.
Qed.

Lemma keeps_cache_summarize svc texts : keeps_cache (summarize_reviews svc texts).
Proof.
  unfold summarize_reviews, messages_create.
  destruct (anthropic_client svc), texts; auto 6 with cache.
Qed.

Lemma keeps_cache_eq {A} (m : M A) st r st' :
  keeps_cache m -> m st = (r, st') -> _cache st' = _cache st.
Proof. intros H E. specialize (H st). now rewrite E in H. Qed.

(** ** Which exceptions can be raised *)

Create HintDb plain.

Lemma res_plain_bind {A B} (m : res A) (f : A -> res B) :
  res_plain m -> (forall a, res_plain (f a)) -> res_plain (m ≫= f).
Proof. destruct m as [a|e]; simpl; auto. Qed.

Lemma res_plain_Ok {A} (a : A) : res_plain (Ok a).
Proof. exact I. Qed.

Ltac plain_cases :=
  repeat match goal with
         | |- res_plain (match ?x with _ => _ end) => destruct x; simpl
         | |- res_plain (if ?b then _ else _) => destruct b; simpl
         end; try exact I.

Lemma getitem_plain d k : res_plain (Py.getitem d k).
Proof. unfold Py.getitem. plain_cases. Qed.

Lemma get_default_plain d k v : res_plain (Py.get_default d k v).
Proof. unfold Py.get_default. plain_cases. Qed.

Lemma get_plain d k : res_plain (Py.get d k).
Proof. apply get_default_plain. Qed.

Lemma to_float_plain v : res_plain (Py.to_float v).
Proof. unfold Py.to_float. plain_cases. Qed.

Lemma gt_zero_plain v : res_plain (Py.gt_zero v).
Proof. unfold Py.gt_zero. plain_cases. Qed.

Lemma ge_zero_plain v : res_plain (Py.ge_zero v).
Proof. unfold Py.ge_zero. plain_cases. Qed.

Lemma lower_strip_plain v : res_plain (Py.lower_strip v).
Proof. unfold Py.lower_strip. plain_cases. Qed.

Lemma strip_plain v : res_plain (Py.strip v).
Proof. unfold Py.strip. plain_cases. Qed.

Lemma slice_to_plain n v : res_plain (Py.slice_to n v).
Proof. unfold Py.slice_to. plain_cases. Qed.

Lemma iter_plain v : res_plain (Py.iter v).
Proof. unfold Py.iter. plain_cases. Qed.

Lemma as_text_plain v : res_plain (as_text v).
Proof. unfold as_text. plain_cases. Qed.

#[local] Hint Resolve res_plain_Ok getitem_plain get_default_plain get_plain
  to_float_plain gt_zero_plain ge_zero_plain lower_strip_plain strip_plain
  slice_to_plain iter_plain as_text_plain : plain.

Ltac plain_steps :=
  repeat first
    [ apply res_plain_bind; [auto with plain | intros ?]
    | match goal with
      | |- res_plain (if ?b then _ else _) => destruct b
      | |- res_plain (match ?x with _ => _ end) => destruct x
      end
    | exact I
    | solve [auto with plain] ].

Lemma rated_nodes_plain edges : res_plain (rated_nodes edges).
Proof.
  induction edges as [|e rest IH]; simpl; [exact I|].
  plain_steps.
Qed.

Lemma first_match_plain parts rated : res_plain (first_match parts rated).
Proof.
  induction rated as [|prof rest IH]; simpl; [exact I|].
  plain_steps.
Qed.

#[local] Hint Resolve rated_nodes_plain first_match_plain : plain.

Lemma search_professor_match_plain name edges :
  res_plain (search_professor_match name edges).
Proof. unfold search_professor_match. plain_steps. Qed.

Lemma review_of_edge_plain edge : res_plain (review_of_edge edge).
Proof. unfold review_of_edge. plain_steps. Qed.

#[local] Hint Resolve search_professor_match_plain review_of_edge_plain : plain.

Lemma reviews_of_edges_plain edges : res_plain (reviews_of_edges edges).
Proof.
  induction edges as [|e rest IH]; simpl; [exact I|].
  plain_steps.
Qed.

#[local] Hint Resolve reviews_of_edges_plain : plain.

Lemma fetch_reviews_clean_plain edges : res_plain (fetch_reviews_clean edges).
Proof. unfold fetch_reviews_clean. plain_steps. Qed.

Lemma build_response_plain prof summary reviews :
  res_plain (build_response prof summary reviews).
Proof. unfold build_response. plain_steps. Qed.

#[local] Hint Resolve fetch_reviews_clean_plain build_response_plain : plain.

Lemma M_plain_ret {A} (a : A) : M_plain (ret a).
Proof. intros st. exact I. Qed.

Lemma M_plain_lift {A} (r : res A) : res_plain r -> M_plain (lift r).
Proof. intros H st. exact H. Qed.

Lemma M_plain_perform {A} c (answer : list call -> option A) :
  M_plain (perform c answer).
Proof. intros st. unfold perform. destruct (answer _); exact I. Qed.

Lemma M_plain_bind {A B} (m : M A) (k : A -> M B) :
  M_plain m -> (forall a, M_plain (k a)) -> M_plain (bind m k).
Proof.
  intros Hm Hk st. unfold bind. specialize (Hm st).
  destruct (m st) as [[a|e] st1]; simpl in *; [apply Hk | exact Hm].
Qed.

Lemma M_plain_try {A} (body : M A) handler :
  (forall e, M_plain (handler e)) -> M_plain (try_except body handler).
Proof.
  intros Hh st. unfold try_except.
  destruct (body st) as [[a|e] st1]; simpl; [exact I | apply Hh].
Qed.

Lemma M_plain_reject {A} (p : A -> M bool) l :
  (forall x, M_plain (p x)) -> M_plain (reject p l).
Proof.
  intros Hp. induction l as [|x l IH]; simpl.
  - apply M_plain_ret.
  - apply M_plain_bind; [apply Hp|]. intros b.
    apply M_plain_bind; [exact IH|]. intros kept. apply M_plain_ret.
Qed.

Lemma M_plain_eq {A} (m : M A) st c d st' :
  M_plain m -> m st <> (Raise (HTTPException c d), st').
Proof. intros H E. specialize (H st). rewrite E in H. exact H. Qed.

(** ** The helpers never let an exception of the client escape *)

Lemma returns_ret {A} (a : A) : returns (ret a).
Proof. intros st. unfold ret. eauto. Qed.

Lemma returns_try {A} (body : M A) handler :
  (forall e, returns (handler e)) -> returns (try_except body handler).
Proof.
  intros Hh st. unfold try_except.
  destruct (body st) as [[a|e] st1]; [eauto | apply Hh].
Qed.

Lemma is_abusive_returns svc text : returns (is_abusive svc text).
Proof.
  unfold is_abusive. destruct (anthropic_client svc).
  - apply returns_try. intros e. apply returns_ret.
  - apply returns_ret.
Qed.

Lemma summarize_reviews_returns svc texts : returns (summarize_reviews svc texts).
Proof.
  unfold summarize_reviews. destruct (anthropic_client svc), texts;
    try apply returns_ret.
  apply returns_try. intros e. apply returns_ret.
Qed.

Lemma returns_plain {A} (m : M A) : returns m -> M_plain m.
Proof. intros H st. destruct (H st) as (a & st' & ->). exact I. Qed.

Lemma fetch_reviews_plain svc id count : M_plain (fetch_reviews svc id count).
Proof.
  unfold fetch_reviews. apply M_plain_bind.
  - apply M_plain_try. intros e. apply M_plain_ret.
  - intros [edges|]; [apply M_plain_lift; auto with plain | apply M_plain_ret].
Qed.

(** ** The shape of a resolution *)

Lemma search_professor_state svc name st :
  snd (search_professor svc name st) = log (search_call name) st.
Proof.
  unfold search_professor, bind, try_except, perform, ret, lift.
  destruct (search_response svc _ _ _); reflexivity.
Qed.

Lemma get_professor_unfold svc name st :
  get_professor svc name st =
  if name_missing name
  then (Raise (HTTPException 400 "Professor name is required."), st)
  else
    match _cache st !! _cache_key name with
    | Some result => (Ok result, st)
    | None =>
        match search_professor svc name st with
        | (Raise e, st1) => (Raise e, st1)
        | (Ok None, st1) => (Raise (not_found name), st1)
        | (Ok (Some prof), st1) =>
            if Py.truthy prof then found_steps svc (_cache_key name) prof st1
            else (Raise (not_found name), st1)
        end
    end.
Proof.
  unfold get_professor. destruct (name_missing name); [reflexivity|].
  unfold bind at 1. unfold cache_get.
  destruct (_cache st !! _cache_key name); [reflexivity|].
  unfold bind at 1.
  destruct (search_professor svc name st) as [[[prof|]|e] st1]; try reflexivity.
  destruct (Py.truthy prof); reflexivity.
Qed.

Lemma found_steps_plain svc key prof : M_plain (found_steps svc key prof).
Proof.
  unfold found_steps.
  apply M_plain_bind; [apply M_plain_lift; auto with plain|]. intros id.
  apply M_plain_bind; [apply fetch_reviews_plain|]. intros raw.
  apply M_plain_bind.
  { apply M_plain_reject. intros r. apply returns_plain, is_abusive_returns. }
  intros clean.
  apply M_plain_bind; [apply returns_plain, summarize_reviews_returns|].
  intros summary.
  apply M_plain_bind; [apply M_plain_lift; auto with plain|]. intros result.
  apply M_plain_bind; [|intros []; apply M_plain_ret].
  intros st. exact I.
Qed.

(** What a run of the steps after the search leaves behind: an error leaves
    the cache as it was; a result was built from [prof] and is the one
    stored under [key]. *)
Lemma found_steps_inv svc key prof st r st' :
  found_steps svc key prof st = (r, st') ->
  match r with
  | Raise e => _cache st' = _cache st
  | Ok result =>
      _cache st' = <[key := result]> (_cache st) /\
      exists summary clean_reviews,
        build_response prof summary clean_reviews = Ok result
  end.
Proof.
  unfold found_steps. intros H.
  apply bind_inv in H as [(e & Hm & ->) | (id & s1 & Hm & H)].
  { unfold lift in Hm. now inversion Hm. }
  assert (E1 : _cache s1 = _cache st) by (unfold lift in Hm; now inversion Hm).
  apply bind_inv in H as [(e & Hm2 & ->) | (raw & s2 & Hm2 & H)].
  { rewrite <- E1. eapply keeps_cache_eq; [apply keeps_cache_fetch | exact Hm2]. }
  assert (E2 : _cache s2 = _cache st).
  { rewrite <- E1. eapply keeps_cache_eq; [apply keeps_cache_fetch | exact Hm2]. }
  apply bind_inv in H as [(e & Hm3 & ->) | (clean & s3 & Hm3 & H)].
  { rewrite <- E2. eapply keeps_cache_eq; [|exact Hm3].
    apply keeps_cache_reject. intros x. apply keeps_cache_is_abusive. }
  assert (E3 : _cache s3 = _cache st).
  { rewrite <- E2. eapply keeps_cache_eq; [|exact Hm3].
    apply keeps_cache_reject. intros x. apply keeps_cache_is_abusive. }
  apply bind_inv in H as [(e & Hm4 & ->) | (summary & s4 & Hm4 & H)].
  { rewrite <- E3. eapply keeps_cache_eq; [apply keeps_cache_summarize | exact Hm4]. }
  assert (E4 : _cache s4 = _cache st).
  { rewrite <- E3. eapply keeps_cache_eq; [apply keeps_cache_summarize | exact Hm4]. }
  apply bind_inv in H as [(e & Hm5 & ->) | (result & s5 & Hm5 & H)].
  { unfold lift in Hm5. inversion Hm5; subst. exact E4. }
  unfold lift in Hm5. inversion Hm5 as [[Hb Hs]]. subst s5.
  unfold bind, cache_set, ret in H. inversion H; subst. simpl.
  rewrite E4. split; [reflexivity | eauto].
Qed.

Lemma search_professor_plain svc name : M_plain (search_professor svc name).
Proof.
  unfold search_professor. apply M_plain_bind.
  - apply M_plain_try. intros e. apply M_plain_ret.
  - intros [edges|]; [apply M_plain_lift; auto with plain | apply M_plain_ret].
Qed.

Lemma plain_is_not_found r : res_plain r -> is_not_found r = false.
Proof. destruct r as [a|[]]; simpl; tauto. Qed.

(** The name of a resolution that went past the first test has a key, and
    so has every name with the same key. *)
Lemma name_missing_key name name' :
  _cache_key name' = _cache_key name ->
  name_missing name = false -> name_missing name' = false.
Proof.
  intros Hk Hn. destruct (name_missing name') eqn:Hn'; [|reflexivity].
  apply name_missing_iff in Hn'.
  assert (Hk' : _cache_key name' = EmptyString)
    by (unfold _cache_key; rewrite Hn'; reflexivity).
  rewrite Hk in Hk'. apply _cache_key_empty, name_missing_iff in Hk'.
  congruence.
Qed.

(** A successful resolution ends with its result in the cache, under the
    key of the name. *)
Lemma get_professor_stored svc name st result st' :
  get_professor svc name st = (Ok result, st') ->
  name_missing name = false /\
  (st' = st /\ _cache st !! _cache_key name = Some result \/
   _cache st !! _cache_key name = None /\
   _cache st' = <[_cache_key name := result]> (_cache st)).
Proof.
  rewrite get_professor_unfold.
  destruct (name_missing name); [discriminate|].
  intros H. split; [reflexivity|].
  destruct (_cache st !! _cache_key name) as [hit|] eqn:Hc.
  - injection H as -> ->. left. auto.
  - right. split; [reflexivity|].
    pose proof (search_professor_state svc name st) as Hs.
    destruct (search_professor svc name st) as [[[prof|]|e] st1];
      try discriminate.
    simpl in Hs. subst st1.
    destruct (Py.truthy prof); [|discriminate].
    apply found_steps_inv in H as [H _]. exact H.
Qed.

(** A resolution that fails leaves the cache as it found it. *)
Lemma get_professor_failed svc name st e st' :
  get_professor svc name st = (Raise e, st') -> _cache st' = _cache st.
Proof.
  rewrite get_professor_unfold.
  destruct (name_missing name); [now intros [= _ <-]|].
  destruct (_cache st !! _cache_key name); [discriminate|].
  pose proof (search_professor_state svc name st) as Hs.
  destruct (search_professor svc name st) as [[[prof|]|e1] st1];
    simpl in Hs; subst st1; try (now intros [= _ <-]).
  destruct (Py.truthy prof); [|now intros [= _ <-]].
  intros H. apply found_steps_inv in H. exact H.
Qed.

(** The not-found outcome comes from the search step, after one call of the
    search service and nothing else. *)
Lemma get_professor_not_found svc name st r st' :
  get_professor svc name st = (r, st') ->
  is_not_found r = true ->
  st' = log (search_call name) st.
Proof.
  rewrite get_professor_unfold.
  destruct (name_missing name); [intros [= <- _]; discriminate|].
  destruct (_cache st !! _cache_key name); [intros [= <- _]; discriminate|].
  pose proof (search_professor_state svc name st) as Hs.
  pose proof (search_professor_plain svc name st) as Hp.
  destruct (search_professor svc name st) as [[[prof|]|e1] st1];
    simpl in Hs, Hp; subst st1.
  - destruct (Py.truthy prof); [|now intros [= _ <-]].
    intros H Hr. pose proof (found_steps_plain svc (_cache_key name) prof
                               (log (search_call name) st)) as Hf.
    rewrite H in Hf. simpl in Hf. apply plain_is_not_found in Hf. congruence.
  - now intros [= _ <-].
  - intros [= <- _] Hr.
    pose proof (plain_is_not_found (Raise e1) Hp).
    simpl in *. congruence.
Qed.

Lemma resolve_times_not_found svc name n : forall st,
  Forall (fun r => is_not_found r = true) (fst (resolve_times svc name n st)) ->
  _cache (snd (resolve_times svc name n st)) = _cache st /\
  calls (snd (resolve_times svc name n st)) =
    (calls st ++ repeat (search_call name) n)%list.
Proof.
  induction n as [|n IH]; intros st; simpl.
  - intros _. now rewrite app_nil_r.
  - destruct (get_professor svc name st) as [r st1] eqn:Hg.
    specialize (IH st1).
    destruct (resolve_times svc name n st1) as [rs st2]. simpl in *.
    intros Hall. apply Forall_cons_1 in Hall as [Hr Hrs].
    apply IH in Hrs as [Hc Hl].
    apply (get_professor_not_found _ _ _ _ _ Hg) in Hr. subst st1.
    simpl in *. split; [exact Hc|].
    rewrite Hl, <- app_assoc. simpl. reflexivity.
Qed.

(** ** Resolution and the cache *)

(** C8: a query name that is empty or made of whitespace only is refused at
    once with the client error 400 "Professor name is required."; the state
    after it, that is the cache and the log of the calls to the external
    services, is the state before it, whatever the cache held, and the outcome
    is not the not-found error. *)
Theorem get_professor_blank_name svc name st :
  Str.all_space name = true ->
  get_professor svc name st =
    (Raise (HTTPException 400 "Professor name is required."), st) /\
  is_not_found (fst (get_professor svc name st)) = false.
Proof.
  intros H. apply StrFacts.strip_empty_iff, name_missing_iff in H.
  rewrite get_professor_unfold, H. split; reflexivity.
Qed.

Lemma get_professor_blank_name_witness :
  Str.all_space "   " = true /\
  get_professor (Example.world None) "   " Example.start =
    (Raise (HTTPException 400 "Professor name is required."), Example.start) /\
  is_not_found
    (fst (get_professor (Example.world None) "   " Example.start)) = false.
Proof.
  split; [reflexivity|].
  apply (get_professor_blank_name (Example.world None) "   " Example.start).
  reflexivity.
Defined.

(** C5: the three spellings "  Jane   Doe ", "jane doe" and "Jane Doe" have
    one cache key; and after a resolution of [name] that succeeded with
    [result], resolving any [name'] with the same key, against any services,
    returns [result] again and leaves the state as it is: no call is added to
    the log of external calls and the cache is not written. *)
Theorem get_professor_idempotent :
  (_cache_key "  Jane   Doe " = "jane doe" /\
   _cache_key "jane doe" = "jane doe" /\
   _cache_key "Jane Doe" = "jane doe") /\
  forall svc svc' name name' st result st1,
    get_professor svc name st = (Ok result, st1) ->
    _cache_key name' = _cache_key name ->
    get_professor svc' name' st1 = (Ok result, st1).
Proof.
  split; [repeat split; reflexivity|].
  intros svc svc' name name' st result st1 Hg Hk.
  apply get_professor_stored in Hg as [Hn Hg].
  rewrite get_professor_unfold, (name_missing_key _ _ Hk Hn), Hk.
  destruct Hg as [[-> Hc] | [_ Hc]].
  - now rewrite Hc.
  - now rewrite Hc, lookup_insert_eq.
Qed.

Lemma get_professor_idempotent_witness :
  exists result st1,
    get_professor (Example.world None) "  Jane   Doe " Example.start =
      (Ok result, st1) /\
    length (calls st1) = 2%nat /\
    get_professor (Example.world (Some Example.blank_client)) "jane doe" st1 =
      (Ok result, st1).
Proof.
  destruct (get_professor (Example.world None) "  Jane   Doe " Example.start)
    as [[result|e] st1] eqn:Hg; [|vm_compute in Hg; discriminate].
  exists result, st1. split; [reflexivity|]. split.
  - vm_compute in Hg. injection Hg as _ <-. reflexivity.
  - apply (proj2 get_professor_idempotent (Example.world None)
             (Example.world (Some Example.blank_client))
             "  Jane   Doe " "jane doe" Example.start result st1 Hg).
    reflexivity.
Defined.

(** C9: a resolution that ends in an error, the client error and the
    not-found error among them, leaves the cache as it was; a resolution that
    succeeds either found its result in the cache and changed nothing, or
    stored exactly its result under the key of the name; and when [n]
    resolutions of one name in a row all end in not-found, the cache is still
    the initial one and the search service has been called [n] times, once by
    each resolution. *)
Theorem get_professor_errors_keep_cache svc name st :
  (forall e st',
     get_professor svc name st = (Raise e, st') -> _cache st' = _cache st) /\
  (forall result st',
     get_professor svc name st = (Ok result, st') ->
     st' = st /\ _cache st !! _cache_key name = Some result \/
     _cache st !! _cache_key name = None /\
     _cache st' = <[_cache_key name := result]> (_cache st)) /\
  (forall n,
     Forall (fun r => is_not_found r = true)
            (fst (resolve_times svc name n st)) ->
     _cache (snd (resolve_times svc name n st)) = _cache st /\
     calls (snd (resolve_times svc name n st)) =
       (calls st ++ repeat (search_call name) n)%list).
Proof.
  split; [|split].
  - intros e st'. apply get_professor_failed.
  - intros result st' H. now apply get_professor_stored in H.
  - intros n. apply resolve_times_not_found.
Qed.

Lemma get_professor_errors_keep_cache_witness :
  fst (resolve_times (Example.world None) "Doe" 3 Example.start) =
    repeat (Raise (not_found "Doe")) 3 /\
  _cache (snd (resolve_times (Example.world None) "Doe" 3 Example.start)) = ∅ /\
  calls (snd (resolve_times (Example.world None) "Doe" 3 Example.start)) =
    repeat (search_call "Doe") 3.
Proof.
  split; [reflexivity|].
  apply (proj2 (proj2 (get_professor_errors_keep_cache
                         (Example.world None) "Doe" Example.start)) 3%nat).
  repeat constructor.
Defined.

(** ** The optional numbers of the record *)

Lemma res_bind_inv {A B} (m : res A) (f : A -> res B) b :
  m ≫= f = Ok b -> exists a, m = Ok a /\ f a = Ok b.
Proof. destruct m as [a|e]; simpl; [eauto | discriminate]. Qed.

Lemma getitem_get prof k v d :
  Py.getitem prof k = Ok v -> Py.get prof k = Ok d -> d = v.
Proof.
  unfold Py.get, Py.get_default, Py.getitem.
  destruct prof; try discriminate.
  destruct (Py.assoc k items); congruence.
Qed.

Lemma is_zero_falsy v : is_zero v = true -> Py.truthy v = false.
Proof. destruct v; simpl; try discriminate; now intros ->. Qed.

(** What the two guarded fields of the record hold, in terms of the values
    [d] and [w] that [prof.get] returns for them. *)
Lemma build_response_optional prof summary reviews result d w :
  build_response prof summary reviews = Ok result ->
  Py.get prof "difficulty" = Ok d ->
  Py.get prof "wouldTakeAgainPercent" = Ok w ->
  ProfessorData.difficulty result =
    (if Py.truthy d
     then match Py.to_float d with
          | Ok x => Some (PyFloat.round1 x)
          | Raise _ => None
          end
     else None) /\
  ProfessorData.wouldTakeAgain result =
    (if Py.truthy w
     then match Py.ge_zero w, Py.to_float w with
          | Ok true, Ok x => Some (PyFloat.round1 x)
          | _, _ => None
          end
     else None).
Proof.
  unfold build_response. intros H Hd Hw.
  apply res_bind_inv in H as (first & _ & H).
  apply res_bind_inv in H as (last & _ & H).
  apply res_bind_inv in H as (rating & _ & H).
  apply res_bind_inv in H as (d' & Hd' & H).
  apply res_bind_inv in H as (difficulty & Hdiff & H).
  apply res_bind_inv in H as (w' & Hw' & H).
  apply res_bind_inv in H as (known & Hknown & H).
  apply res_bind_inv in H as (wta & Hwta & H).
  apply res_bind_inv in H as (numRatings & _ & H).
  apply res_bind_inv in H as (department & _ & H).
  injection H as <-. simpl.
  assert (d' = d) by congruence. assert (w' = w) by congruence. subst d' w'.
  split.
  - destruct (Py.truthy d); [|congruence].
    apply res_bind_inv in Hdiff as (x & Hx & Hdiff).
    apply res_bind_inv in Hx as (v & Hv & Hx).
    rewrite (getitem_get _ _ _ _ Hv Hd), Hx. congruence.
  - destruct (Py.truthy w).
    + apply res_bind_inv in Hknown as (v & Hv & Hknown).
      rewrite (getitem_get _ _ _ _ Hv Hw), Hknown.
      destruct known.
      * apply res_bind_inv in Hwta as (x & Hx & Hwta).
        apply res_bind_inv in Hx as (v' & Hv' & Hx).
        assert (v' = v) by congruence. subst v'.
        rewrite Hx. congruence.
      * congruence.
    + injection Hknown as <-. congruence.
Qed.

(** The record of a resolution that went through the search was assembled
    from the professor the search returned. *)
Lemma get_professor_assembled svc name st prof st1 result st' :
  _cache st !! _cache_key name = None ->
  search_professor svc name st = (Ok (Some prof), st1) ->
  get_professor svc name st = (Ok result, st') ->
  exists summary clean_reviews,
    build_response prof summary clean_reviews = Ok result.
Proof.
  intros Hc Hs. rewrite get_professor_unfold, Hc, Hs.
  destruct (name_missing name); [discriminate|].
  destruct (Py.truthy prof); [|discriminate].
  intros H. apply found_steps_inv in H as [_ H]. exact H.
Qed.

(** C10: when a resolution that misses the cache matches a professor whose
    difficulty is present and exactly zero, the record it returns has no
    difficulty. *)
Theorem get_professor_zero_difficulty svc name st prof st1 d result st' :
  _cache st !! _cache_key name = None ->
  search_professor svc name st = (Ok (Some prof), st1) ->
  Py.get prof "difficulty" = Ok d ->
  is_zero d = true ->
  get_professor svc name st = (Ok result, st') ->
  ProfessorData.difficulty result = None.
Proof.
  intros Hc Hs Hd Hz Hg.
  destruct (get_professor_assembled _ _ _ _ _ _ _ Hc Hs Hg)
    as (summary & clean & Hb).
  destruct (Py.get prof "wouldTakeAgainPercent") as [w|e] eqn:Hw.
  - destruct (build_response_optional _ _ _ _ _ _ Hb Hd Hw) as [-> _].
    now rewrite (is_zero_falsy _ Hz).
  - unfold build_response in Hb.
    repeat (apply res_bind_inv in Hb as (? & ? & Hb)). congruence.
Qed.

Lemma get_professor_zero_difficulty_witness :
  Candidate.difficulty Example.jane = Value (Int 0) /\
  exists result st',
    get_professor (Example.world None) "Jane Doe" Example.start =
      (Ok result, st') /\
    ProfessorData.difficulty result = None.
Proof.
  split; [reflexivity|].
  destruct (get_professor (Example.world None) "Jane Doe" Example.start)
    as [[result|e] st'] eqn:Hg; [|vm_compute in Hg; discriminate].
  exists result, st'. split; [reflexivity|].
  apply (get_professor_zero_difficulty (Example.world None) "Jane Doe"
           Example.start (Candidate.encode Example.jane)
           (log (search_call "Jane Doe") Example.start) (PInt 0)
           result st');
    [reflexivity | vm_compute; reflexivity | reflexivity | reflexivity
    | exact Hg].
Defined.

(** C1: when a resolution that misses the cache matches a professor whose
    wouldTakeAgainPercent is [w], the record it returns has a wouldTakeAgain
    exactly when [w] is truthy and [w >= 0], and then it is [w] rounded to one
    decimal; a [w] that is present and exactly zero is not truthy, so the
    record has no wouldTakeAgain, as for a negative or an absent [w]. *)
Theorem get_professor_wouldTakeAgain svc name st prof st1 w result st' :
  _cache st !! _cache_key name = None ->
  search_professor svc name st = (Ok (Some prof), st1) ->
  Py.get prof "wouldTakeAgainPercent" = Ok w ->
  get_professor svc name st = (Ok result, st') ->
  ProfessorData.wouldTakeAgain result =
    (if Py.truthy w
     then match Py.ge_zero w, Py.to_float w with
          | Ok true, Ok x => Some (PyFloat.round1 x)
          | _, _ => None
          end
     else None) /\
  (is_zero w = true -> ProfessorData.wouldTakeAgain result = None).
Proof.
  intros Hc Hs Hw Hg.
  destruct (get_professor_assembled _ _ _ _ _ _ _ Hc Hs Hg)
    as (summary & clean & Hb).
  assert (E : ProfessorData.wouldTakeAgain result =
    (if Py.truthy w
     then match Py.ge_zero w, Py.to_float w with
          | Ok true, Ok x => Some (PyFloat.round1 x)
          | _, _ => None
          end
     else None)).
  { destruct (Py.get prof "difficulty") as [d|e] eqn:Hd.
    - now destruct (build_response_optional _ _ _ _ _ _ Hb Hd Hw).
    - unfold build_response in Hb.
      repeat (apply res_bind_inv in Hb as (? & ? & Hb)). congruence. }
  split; [exact E|].
  intros Hz. now rewrite E, (is_zero_falsy _ Hz).
Qed.

Lemma get_professor_wouldTakeAgain_witness :
  Candidate.wouldTakeAgainPercent Example.jane = Value (Int 0) /\
  exists result st',
    get_professor (Example.world None) "Jane Doe" Example.start =
      (Ok result, st') /\
    ProfessorData.wouldTakeAgain result = None.
Proof.
  split; [reflexivity|].
  destruct (get_professor (Example.world None) "Jane Doe" Example.start)
    as [[result|e] st'] eqn:Hg; [|vm_compute in Hg; discriminate].
  exists result, st'. split; [reflexivity|].
  apply (get_professor_wouldTakeAgain (Example.world None) "Jane Doe"
           Example.start (Candidate.encode Example.jane)
           (log (search_call "Jane Doe") Example.start) (PInt 0)
           result st');
    [reflexivity | vm_compute; reflexivity | reflexivity | exact Hg
    | reflexivity].
Defined.

(** ** The two helpers that call the model *)

Lemma prefix_length n s : (String.length (Str.prefix n s) <= n)%nat.
Proof.
  revert s. induction n as [|n IH]; intros [|c s]; simpl; try lia.
  specialize (IH s). lia.
Qed.

Lemma prefix_app n s : exists rest, s = Str.prefix n s ++ rest.
Proof.
  revert s. induction n as [|n IH]; intros s.
  - exists s. now destruct s.
  - destruct s as [|c s]; [now exists EmptyString|].
    destruct (IH s) as [rest Hr]. exists rest.
    exact (f_equal (String c) Hr).
Qed.

Lemma prefix_short n s : (String.length s <= n)%nat -> Str.prefix n s = s.
Proof.
  revert s. induction n as [|n IH]; intros [|c s]; simpl; try reflexivity;
    try lia.
  intros H. rewrite IH; [reflexivity | lia].
Qed.

(** One run of [is_abusive] with a client. *)
Lemma is_abusive_run svc client text st :
  anthropic_client svc = Some client ->
  is_abusive svc text st =
    (Ok match client (calls st) (moderation_request text) with
        | Some r => String.eqb (Str.upper (Str.strip r)) "YES"
        | None => false
        end,
     log (MessagesCall (moderation_request text)) st).
Proof.
  intros Hc. unfold is_abusive. rewrite Hc.
  unfold try_except, bind, messages_create, perform, ret.
  fold (moderation_request text).
  destruct (client (calls st) (moderation_request text)) as [r|];
    [|reflexivity].
  destruct (String.eqb (Str.upper (Str.strip r)) "YES"); reflexivity.
Qed.

(** C7: [is_abusive] returns a boolean on every text and in every state, it
    raises nothing. Without a client the answer is [false] and nothing is
    called. With a client, one request is made; its content is a prefix of
    the text of at most 512 characters (the text itself when it is that
    short); the answer is [true] exactly when the client answered with a text
    that is "YES" once stripped and uppercased, so it is [false] when the call
    failed. *)
Theorem is_abusive_never_raises svc text st :
  exists b,
    fst (is_abusive svc text st) = Ok b /\
    match anthropic_client svc with
    | None => b = false /\ snd (is_abusive svc text st) = st
    | Some client =>
        let req := moderation_request text in
        snd (is_abusive svc text st) = log (MessagesCall req) st /\
        (String.length (content req) <= 512)%nat /\
        (exists rest, text = content req ++ rest) /\
        ((String.length text <= 512)%nat -> content req = text) /\
        (b = true <->
         exists r, client (calls st) req = Some r /\
                   Str.upper (Str.strip r) = "YES") /\
        (client (calls st) req = None -> b = false)
    end.
Proof.
  destruct (anthropic_client svc) as [client|] eqn:Hc.
  - rewrite (is_abusive_run _ _ _ _ Hc). eexists. split; [reflexivity|].
    cbv zeta. cbn [fst snd].
    change (content (moderation_request text)) with (Str.prefix 512 text).
    split; [reflexivity|]. split; [apply prefix_length|].
    split; [apply prefix_app|]. split; [apply prefix_short|].
    destruct (client (calls st) (moderation_request text)) as [r|].
    + split; [|discriminate]. rewrite String.eqb_eq. split.
      * intros H. eauto.
      * now intros (r' & [= <-] & H).
    + split; [|reflexivity]. split; [discriminate|].
      now intros (r' & [=] & _).
  - unfold is_abusive. rewrite Hc. exists false. auto.
Qed.

Lemma of_nat_not_empty n : Str.of_nat n <> EmptyString.
Proof.
  unfold Str.of_nat, NilZero.string_of_uint.
  destruct (Nat.to_uint n); simpl; discriminate.
Qed.

Lemma _fallback_summary_not_empty review_texts :
  _fallback_summary review_texts <> EmptyString.
Proof. destruct review_texts; simpl; discriminate. Qed.

(** One run of [summarize_reviews]. *)
Lemma summarize_reviews_run svc review_texts st :
  summarize_reviews svc review_texts st =
    match anthropic_client svc, review_texts with
    | None, _ | _, [] => (Ok (_fallback_summary review_texts), st)
    | Some client, _ =>
        (Ok match client (calls st) (summary_request review_texts) with
            | Some response => Str.strip response
            | None => _fallback_summary review_texts
            end,
         log (MessagesCall (summary_request review_texts)) st)
    end.
Proof.
  unfold summarize_reviews.
  destruct (anthropic_client svc) as [client|]; [|reflexivity].
  destruct review_texts as [|t l]; [reflexivity|].
  unfold try_except, bind, messages_create, perform, ret.
  fold (summary_request (t :: l)).
  destruct (client (calls st) (summary_request (t :: l))); reflexivity.
Qed.

(** A configured client that answers one review with two spaces: the call
    succeeds and the summary is the empty string. *)
Lemma summarize_reviews_blank_response :
  Example.blank_client [] (summary_request ["Great lectures"]) = Some "  " /\
  summarize_reviews (Example.world (Some Example.blank_client))
    ["Great lectures"] Example.start =
    (Ok EmptyString,
     log (MessagesCall (summary_request ["Great lectures"])) Example.start).
Proof. split; reflexivity. Qed.

(** C4, amended: [summarize_reviews] returns a string on every input and in
    every state. For no texts it is the fixed message and nothing is called.
    Without a client, or when the call fails, it is the fallback sentence,
    which is never empty and reads "1 student review" for one text and
    "N student reviews" for N >= 2. When the client answers, it is the answer
    stripped; it is empty exactly when the client answered with whitespace
    only. *)
Theorem summarize_reviews_total svc review_texts st :
  exists summary,
    fst (summarize_reviews svc review_texts st) = Ok summary /\
    (review_texts = [] ->
     summary = "No reviews available to summarize." /\
     snd (summarize_reviews svc review_texts st) = st) /\
    (anthropic_client svc = None ->
     summary = _fallback_summary review_texts) /\
    (forall client,
       anthropic_client svc = Some client -> review_texts <> [] ->
       match client (calls st) (summary_request review_texts) with
       | Some response => summary = Str.strip response
       | None => summary = _fallback_summary review_texts
       end) /\
    _fallback_summary review_texts <> "" /\
    (length review_texts = 1%nat ->
     _fallback_summary review_texts =
       "Based on 1 student review from Rate My Professor. See individual reviews below for details.") /\
    ((2 <= length review_texts)%nat ->
     _fallback_summary review_texts =
       "Based on " ++ Str.of_nat (length review_texts)
       ++ " student reviews from Rate My Professor. See individual reviews below for details.") /\
    (summary = "" <->
     exists client response,
       anthropic_client svc = Some client /\ review_texts <> [] /\
       client (calls st) (summary_request review_texts) = Some response /\
       Str.all_space response = true).
Proof.
  assert (F1 : length review_texts = 1%nat ->
     _fallback_summary review_texts =
       "Based on 1 student review from Rate My Professor. See individual reviews below for details.").
  { destruct review_texts as [|t [|t' l]]; simpl; try discriminate.
    reflexivity. }
  assert (F2 : (2 <= length review_texts)%nat ->
     _fallback_summary review_texts =
       "Based on " ++ Str.of_nat (length review_texts)
       ++ " student reviews from Rate My Professor. See individual reviews below for details.").
  { destruct review_texts as [|t [|t' l]]; simpl; try lia. reflexivity. }
  pose proof (_fallback_summary_not_empty review_texts) as F0.
  rewrite summarize_reviews_run.
  destruct (anthropic_client svc) as [client|] eqn:Hc.
  - destruct review_texts as [|t l].
    + eexists. split; [reflexivity|].
      split; [auto|]. split; [discriminate|]. split; [congruence|].
      split; [exact F0|]. split; [exact F1|]. split; [exact F2|].
      split; [discriminate|]. intros (c & r & _ & H & _). congruence.
    + eexists. split; [reflexivity|].
      split; [discriminate|]. split; [discriminate|].
      split; [intros c [= <-] _;
              destruct (client (calls st) (summary_request (t :: l)));
              reflexivity|].
      split; [exact F0|]. split; [exact F1|]. split; [exact F2|].
      destruct (client (calls st) (summary_request (t :: l))) as [r|] eqn:Hr.
      * rewrite StrFacts.strip_empty_iff. split.
        -- intros H. exists client, r.
           split; [reflexivity|]. split; [discriminate|].
           split; [exact Hr | exact H].
        -- intros (c & r' & [= <-] & _ & Hr' & Hs).
           rewrite Hr in Hr'. now injection Hr' as <-.
      * split; [intros H; now apply F0 in H|].
        intros (c & r' & [= <-] & _ & Hr' & _). congruence.
  - eexists. split; [reflexivity|].
    split; [intros ->; auto|]. split; [reflexivity|].
    split; [discriminate|].
    split; [exact F0|]. split; [exact F1|]. split; [exact F2|].
    split; [intros H; now apply F0 in H|].
    intros (c & r' & [=] & _).
Qed.

(** ** The name matcher *)

Lemma is_space_lower_char c : Str.is_space (Str.lower_char c) = Str.is_space c.
Proof. destruct c as [[] [] [] [] [] [] [] []]; reflexivity. Qed.

Lemma is_empty_map_chars f s : Str.is_empty (Str.map_chars f s) = Str.is_empty s.
Proof. now destruct s. Qed.

Lemma lstrip_lower s : Str.lstrip (Str.lower s) = Str.lower (Str.lstrip s).
Proof.
  induction s as [|c s IH]; simpl; [reflexivity|].
  rewrite is_space_lower_char. now destruct (Str.is_space c).
Qed.

Lemma rstrip_lower s : Str.rstrip (Str.lower s) = Str.lower (Str.rstrip s).
Proof.
  induction s as [|c s IH]; simpl; [reflexivity|].
  fold (Str.lower s). rewrite IH, is_space_lower_char.
  unfold Str.lower at 1. rewrite is_empty_map_chars.
  now destruct (Str.is_space c && Str.is_empty (Str.rstrip s)).
Qed.

(** Trimming and lowercasing can be done in either order. *)
Lemma strip_lower s : Str.strip (Str.lower s) = Str.lower (Str.strip s).
Proof. unfold Str.strip. now rewrite lstrip_lower, rstrip_lower. Qed.

Lemma getitem_firstName c :
  Py.getitem (Candidate.encode c) "firstName" = Ok (PStr (Candidate.firstName c)).
Proof. reflexivity. Qed.

Lemma getitem_lastName c :
  Py.getitem (Candidate.encode c) "lastName" = Ok (PStr (Candidate.lastName c)).
Proof. reflexivity. Qed.

Lemma getitem_numRatings c :
  Py.getitem (Candidate.encode c) "numRatings" = Ok (PInt (Candidate.numRatings c)).
Proof. destruct c as [id f l [| |r] [| |d] [| |w] n dep]; reflexivity. Qed.

Lemma rated_nodes_cons e rest :
  rated_nodes (e :: rest) =
    (node ← Py.getitem e "node";
     n ← Py.getitem node "numRatings";
     keep ← Py.gt_zero n;
     tail ← rated_nodes rest;
     Ok (if keep : bool then node :: tail else tail)).
Proof. reflexivity. Qed.

Lemma rated_nodes_typed candidates :
  rated_nodes (List.map Candidate.edge candidates) =
    Ok (List.map Candidate.encode (List.filter rated candidates)).
Proof.
  induction candidates as [|c cs IH]; [reflexivity|].
  cbn [List.map List.filter]. rewrite rated_nodes_cons.
  change (Py.getitem (Candidate.edge c) "node") with (Ok (Candidate.encode c)).
  cbn [mbind res_bind]. rewrite getitem_numRatings.
  cbn [mbind res_bind Py.gt_zero]. rewrite IH.
  cbn [mbind res_bind]. unfold rated.
  now destruct (0 <? Candidate.numRatings c).
Qed.

Lemma first_match_cons name_parts prof rest :
  first_match name_parts (prof :: rest) =
    (f ← Py.getitem prof "firstName";
     first ← Py.lower_strip f;
     l ← Py.getitem prof "lastName";
     last ← Py.lower_strip l;
     if Py.str_in last name_parts && Py.str_in first name_parts
     then Ok (Some prof)
     else first_match name_parts rest).
Proof. reflexivity. Qed.

Lemma first_match_typed name_parts candidates :
  first_match name_parts (List.map Candidate.encode candidates) =
    Ok (Candidate.encode <$> List.find (confident name_parts) candidates).
Proof.
  induction candidates as [|c cs IH]; [reflexivity|].
  cbn [List.map List.find]. rewrite first_match_cons.
  rewrite getitem_firstName. cbn [mbind res_bind Py.lower_strip].
  rewrite getitem_lastName. cbn [mbind res_bind Py.lower_strip].
  unfold confident. rewrite !strip_lower, IH.
  rewrite (andb_comm (Py.str_in (Str.lower (Str.strip (Candidate.lastName c))) _)).
  now destruct (_ && _).
Qed.

Lemma find_filter_rated name_parts candidates c :
  List.find (confident name_parts) (List.filter rated candidates) = Some c ->
  0 < Candidate.numRatings c.
Proof.
  intros H. apply find_some in H as [H _].
  apply filter_In in H as [_ H]. unfold rated in H. lia.
Qed.

Lemma search_professor_match_typed name candidates :
  search_professor_match name (PList (List.map Candidate.edge candidates)) =
    Ok (Candidate.encode <$> NameMatcher name candidates).
Proof.
  unfold search_professor_match, NameMatcher, name_tokens.
  destruct candidates as [|c cs]; [reflexivity|].
  cbn [Py.truthy List.map negb Py.iter mbind res_bind].
  change (Candidate.edge c :: List.map Candidate.edge cs)
    with (List.map Candidate.edge (c :: cs)).
  rewrite rated_nodes_typed. cbn [mbind res_bind].
  rewrite <- first_match_typed.
  now destruct (List.map Candidate.encode (List.filter rated (c :: cs))).
Qed.

(** C3: on the candidates of a search response, the choice [search_professor]
    makes is that of the name matcher: discard the candidates whose numRatings
    is not positive, then take the first of the others, in input order, whose
    trimmed and lowercased first and last names are both whole whitespace
    tokens of the lowercased query, and none when there is no such candidate.
    A candidate that is returned has numRatings > 0, comes from the input and
    has both names among the tokens; when none is returned, no candidate of
    the input with numRatings > 0 has both names among the tokens. This is
    what [search_professor] returns whenever the search service answers with
    these candidates. *)
Theorem search_professor_is_NameMatcher name candidates :
  search_professor_match name (PList (List.map Candidate.edge candidates)) =
    Ok (Candidate.encode <$> NameMatcher name candidates) /\
  (forall c,
     NameMatcher name candidates = Some c ->
     0 < Candidate.numRatings c /\ In c candidates /\
     confident (name_tokens name) c = true /\
     exists before after,
       List.filter rated candidates = (before ++ c :: after)%list /\
       Forall (fun c' => confident (name_tokens name) c' = false) before) /\
  (NameMatcher name candidates = None ->
   forall c, In c candidates -> 0 < Candidate.numRatings c ->
             confident (name_tokens name) c = false) /\
  (forall svc st,
     search_response svc (calls st) (Str.remove_char (ascii_of_N 34) name)
       UWT_SCHOOL_ID = Some (PList (List.map Candidate.edge candidates)) ->
     fst (search_professor svc name st) =
       Ok (Candidate.encode <$> NameMatcher name candidates)).
Proof.
  split; [apply search_professor_match_typed|]. split; [|split].
  - unfold NameMatcher. intros c H.
    split; [eapply find_filter_rated; exact H|].
    pose proof H as H'. apply find_some in H' as [Hin Hc].
    apply filter_In in Hin as [Hin _].
    split; [exact Hin|]. split; [exact Hc|].
    clear Hin Hc. induction (List.filter rated candidates) as [|x l IH];
      [discriminate|].
    simpl in H. destruct (confident (name_tokens name) x) eqn:Hx.
    + injection H as ->. exists [], l. split; [reflexivity | constructor].
    + destruct (IH H) as (before & after & -> & Hall).
      exists (x :: before), after. split; [reflexivity|].
      constructor; assumption.
  - unfold NameMatcher. intros H c Hin Hr.
    destruct (confident (name_tokens name) c) eqn:Hc; [|reflexivity].
    eapply find_none in H; [rewrite Hc in H; discriminate|].
    apply filter_In. split; [exact Hin|]. unfold rated. lia.
  - intros svc st H. unfold search_professor, bind, try_except, perform, ret.
    rewrite H. cbn [fst lift]. unfold lift.
    now rewrite search_professor_match_typed.
Qed.

(** ** The review sanitizer *)

Lemma review_of_edge_text edge review :
  review_of_edge edge = Ok (Some review) -> Review.text review <> EmptyString.
Proof.
  unfold review_of_edge. intros H.
  apply res_bind_inv in H as (node & _ & H).
  apply res_bind_inv in H as (c & _ & H).
  apply res_bind_inv in H as (comment & _ & H).
  destruct (Str.is_empty comment) eqn:He; [discriminate|].
  apply res_bind_inv in H as (raw_date & _ & H).
  apply res_bind_inv in H as (short_date & _ & H).
  apply res_bind_inv in H as (q & _ & H).
  apply res_bind_inv in H as (rating & _ & H).
  apply res_bind_inv in H as (cls & _ & H).
  injection H as <-. simpl. now apply StrFacts.is_empty_false.
Qed.

Lemma review_of_edge_blank edge :
  blank_comment edge -> review_of_edge edge = Ok None.
Proof.
  intros (node & c & s & Hn & Hc & Ho & Hs).
  unfold review_of_edge. rewrite Hn. cbn [mbind res_bind].
  rewrite Hc. cbn [mbind res_bind]. rewrite Ho. cbn [mbind res_bind Py.strip].
  apply StrFacts.strip_empty_iff in Hs. now rewrite Hs.
Qed.

Lemma reviews_of_edges_cons edge rest :
  reviews_of_edges (edge :: rest) =
    (r ← review_of_edge edge;
     tail ← reviews_of_edges rest;
     Ok (match r with Some review => review :: tail | None => tail end)).
Proof. reflexivity. Qed.

Lemma reviews_of_edges_text edges : forall reviews,
  reviews_of_edges edges = Ok reviews ->
  Forall (fun r => Review.text r <> EmptyString) reviews /\
  (length reviews <= length edges)%nat.
Proof.
  induction edges as [|edge rest IH]; intros reviews.
  - intros [= <-]. split; [constructor | reflexivity].
  - rewrite reviews_of_edges_cons. intros H.
    apply res_bind_inv in H as (r & Hr & H).
    apply res_bind_inv in H as (tail & Ht & H).
    destruct (IH tail Ht) as [Hall Hlen].
    injection H as <-. destruct r as [review|]; simpl.
    + split; [|lia]. constructor; [|exact Hall].
      eapply review_of_edge_text; exact Hr.
    + split; [exact Hall | lia].
Qed.

Lemma reviews_of_edges_drop before edge after :
  review_of_edge edge = Ok None ->
  reviews_of_edges (before ++ edge :: after) = reviews_of_edges (before ++ after).
Proof.
  intros H. induction before as [|e before IH].
  - cbn [app]. rewrite reviews_of_edges_cons, H. cbn [mbind res_bind].
    now destruct (reviews_of_edges after).
  - cbn [app]. now rewrite !reviews_of_edges_cons, IH.
Qed.

(** C6: every review in the output of the sanitizing loop of [fetch_reviews]
    has a text that is not empty; and an edge of the input whose comment is
    missing, null, empty or all whitespace is dropped: the output is the one
    the input without it gives, so it has fewer reviews than the input has
    edges. *)
Theorem fetch_reviews_clean_text edges reviews :
  fetch_reviews_clean edges = Ok reviews ->
  Forall (fun r => Review.text r <> "") reviews /\
  forall before edge after,
    edges = PList (before ++ edge :: after) ->
    blank_comment edge ->
    fetch_reviews_clean (PList (before ++ after)) = Ok reviews /\
    (length reviews < length (before ++ edge :: after))%nat.
Proof.
  unfold fetch_reviews_clean. intros H.
  apply res_bind_inv in H as (items & Hi & H).
  split; [now apply reviews_of_edges_text in H|].
  intros before edge after -> Hb. injection Hi as <-.
  cbn [Py.iter mbind res_bind].
  rewrite (reviews_of_edges_drop _ _ _ (review_of_edge_blank _ Hb)) in H.
  split; [exact H|].
  apply reviews_of_edges_text in H as [_ H].
  rewrite length_app in *. simpl. lia.
Qed.

Lemma fetch_reviews_clean_text_witness :
  exists reviews,
    fetch_reviews_clean
      (PList [RawReview.edge Example.empty_review;
              RawReview.edge Example.good_review]) = Ok reviews /\
    length reviews = 1%nat /\
    Forall (fun r => Review.text r <> "") reviews /\
    fetch_reviews_clean (PList [RawReview.edge Example.good_review]) =
      Ok reviews.
Proof.
  destruct (fetch_reviews_clean
              (PList [RawReview.edge Example.empty_review;
                      RawReview.edge Example.good_review]))
    as [reviews|e] eqn:H; [|vm_compute in H; discriminate].
  exists reviews. split; [reflexivity|].
  split; [vm_compute in H; injection H as <-; reflexivity|].
  destruct (fetch_reviews_clean_text _ _ H) as [Hall Hdrop].
  split; [exact Hall|].
  apply (Hdrop [] (RawReview.edge Example.empty_review)
           [RawReview.edge Example.good_review] eq_refl).
  exists (RawReview.encode Example.empty_review), (PStr "   "), "   ".
  repeat split; reflexivity.
Defined.

Lemma get_comment r :
  Py.get (RawReview.encode r) "comment" =
    Ok (match RawReview.commentText r with Value s => PStr s | _ => PNone end).
Proof. destruct r as [[| |c] [| |q] [| |k] [| |d]]; reflexivity. Qed.

Lemma get_qualityRating r :
  Py.get (RawReview.encode r) "qualityRating" =
    Ok (match RawReview.qualityRating r with
        | Value n => encode_number n
        | _ => PNone
        end).
Proof. destruct r as [[| |c] [| |q] [| |k] [| |d]]; reflexivity. Qed.

Lemma get_class r :
  Py.get (RawReview.encode r) "class" =
    Ok (match RawReview.courseLabel r with Value s => PStr s | _ => PNone end).
Proof. destruct r as [[| |c] [| |q] [| |k] [| |d]]; reflexivity. Qed.

Lemma get_date r :
  Py.get_default (RawReview.encode r) "date" (PStr "") =
    Ok (match RawReview.dateText r with
        | Missing => PStr ""
        | Null => PNone
        | Value s => PStr s
        end).
Proof. destruct r as [[| |c] [| |q] [| |k] [| |d]]; reflexivity. Qed.

Lemma of_Z_0 : PyFloat.of_Z 0 = Some 0%float.
Proof. reflexivity. Qed.

(** [float(q or 0)] on a number that fits, a missing field or a null. *)
Lemma to_float_rating q :
  match q with Value n => number_fits n | _ => true end = true ->
  Py.to_float
    (Py.or_else (match q with Value n => encode_number n | _ => PNone end)
       (PInt 0)) = Ok (rating_of q).
Proof.
  unfold Py.or_else.
  destruct q as [| |[z|f]]; cbn [Py.truthy encode_number rating_of number_fits];
    try reflexivity.
  - destruct (Z.eqb_spec z 0) as [->|Hz]; cbn [negb Py.to_float].
    + reflexivity.
    + now destruct (PyFloat.of_Z z).
  - intros _. now destruct (PrimFloat.eqb f 0).
Qed.

Lemma strip_empty : Str.strip EmptyString = EmptyString.
Proof. reflexivity. Qed.

Lemma review_of_edge_typed r :
  rating_fits r = true ->
  review_of_edge (RawReview.edge r) = Ok (sanitize r).
Proof.
  intros Hf. unfold review_of_edge.
  change (Py.getitem (RawReview.edge r) "node") with (Ok (RawReview.encode r)).
  cbn [mbind res_bind]. rewrite get_comment. cbn [mbind res_bind].
  unfold sanitize.
  assert (Hc : Py.strip
            (Py.or_else
               match RawReview.commentText r with
               | Value s => PStr s
               | _ => PNone
               end (PStr "")) =
          Ok (Str.strip match RawReview.commentText r with
                        | Value s => s
                        | _ => EmptyString
                        end)).
  { destruct (RawReview.commentText r) as [| |s]; try reflexivity.
    now destruct s. }
  rewrite Hc. cbn [mbind res_bind].
  destruct (Str.is_empty _); [reflexivity|].
  rewrite get_date. cbn [mbind res_bind].
  assert (Hd : (if Py.truthy
                     match RawReview.dateText r with
                     | Missing => PStr ""
                     | Null => PNone
                     | Value s => PStr s
                     end
                then Py.slice_to 10
                       match RawReview.dateText r with
                       | Missing => PStr ""
                       | Null => PNone
                       | Value s => PStr s
                       end
                else Ok PNone) =
               Ok (nonempty_or_none (RawReview.dateText r) (Str.prefix 10))).
  { destruct (RawReview.dateText r) as [| |s]; try reflexivity.
    now destruct s. }
  rewrite Hd. cbn [mbind res_bind].
  rewrite get_qualityRating. cbn [mbind res_bind].
  rewrite (to_float_rating _ Hf). cbn [mbind res_bind].
  rewrite get_class. cbn [mbind res_bind].
  do 2 f_equal. f_equal.
  destruct (RawReview.courseLabel r) as [| |s]; try reflexivity.
  now destruct s.
Qed.

Lemma reviews_of_edges_typed raws :
  Forall (fun r => rating_fits r = true) raws ->
  reviews_of_edges (List.map RawReview.edge raws) = Ok (omap sanitize raws).
Proof.
  induction 1 as [|r raws Hr _ IH]; [reflexivity|].
  cbn [List.map]. rewrite reviews_of_edges_cons, (review_of_edge_typed _ Hr).
  cbn [mbind res_bind]. rewrite IH. cbn [mbind res_bind].
  change (omap sanitize (r :: raws))
    with (match sanitize r with
          | Some review => review :: omap sanitize raws
          | None => omap sanitize raws
          end).
  now destruct (sanitize r).
Qed.

(** A review whose qualityRating is the text "N/A": [float] raises
    [ValueError] and so does the loop. *)
Lemma fetch_reviews_clean_not_a_number :
  fetch_reviews_clean (PList [Example.unrated_review]) = Raise ValueError.
Proof. reflexivity. Qed.

(** C2, amended: on raw reviews whose fields, where present, are of their
    JSON types (strings for the comment, the class and the date; a number
    that [float] can represent for the rating) the sanitizing loop of
    [fetch_reviews] raises nothing and returns the sanitized reviews, in
    order: the fields that are missing or null take their defaults, the
    rating 0, no course and no date among them. *)
Theorem fetch_reviews_clean_typed raws :
  Forall (fun r => rating_fits r = true) raws ->
  fetch_reviews_clean (PList (List.map RawReview.edge raws)) =
    Ok (omap sanitize raws) /\
  forall r review,
    In r raws -> sanitize r = Some review ->
    (field_value (RawReview.qualityRating r) = None ->
     Review.rating review = 0%float) /\
    (field_value (RawReview.courseLabel r) = None ->
     Review.course review = PNone) /\
    (field_value (RawReview.dateText r) = None ->
     Review.date review = PNone).
Proof.
  intros H. split.
  - unfold fetch_reviews_clean. cbn [Py.iter mbind res_bind].
    now apply reviews_of_edges_typed.
  - intros r review _. unfold sanitize.
    destruct (Str.is_empty _); [discriminate|]. intros [= <-]. simpl.
    repeat split.
    + now destruct (RawReview.qualityRating r).
    + now destruct (RawReview.courseLabel r).
    + now destruct (RawReview.dateText r).
Qed.

Lemma fetch_reviews_clean_typed_witness :
  fetch_reviews_clean
    (PList [RawReview.edge Example.empty_review;
            RawReview.edge Example.good_review]) =
    Ok [Review.mk 0 "Great lectures, tough exams" PNone (PStr "2024-01-05")].
Proof.
  apply (fetch_reviews_clean_typed [Example.empty_review; Example.good_review]).
  repeat constructor.
Defined.

(** * Further properties *)

(** ** The cache key and the tokens of a name *)

Lemma append_nil_r (s : string) : s ++ "" = s.
Proof.
  induction s as [|c s IH]; [reflexivity | exact (f_equal (String c) IH)].
Qed.

Lemma append_assoc (s t u : string) : (s ++ t) ++ u = s ++ (t ++ u).
Proof.
  induction s as [|c s IH]; [reflexivity | exact (f_equal (String c) IH)].
Qed.

Lemma is_empty_append_char cur c :
  Str.is_empty (cur ++ String c EmptyString) = false.
Proof. now destruct cur. Qed.

Lemma all_space_rstrip s : Str.all_space s = true -> Str.rstrip s = EmptyString.
Proof.
  induction s as [|c s IH]; simpl; [reflexivity|].
  intros [Hc Hs]%andb_prop. now rewrite Hc, (IH Hs).
Qed.

Lemma split_from_nil s : forall cur,
  Str.split_from cur s = [] ->
  Str.is_empty cur = true /\ Str.all_space s = true.
Proof.
  induction s as [|c s IH]; intros cur; simpl.
  - now destruct (Str.is_empty cur).
  - destruct (Str.is_space c); simpl.
    + destruct (Str.is_empty cur) eqn:Hc; [|discriminate].
      intros H. now apply IH in H as [_ H].
    + intros H. apply IH in H as [H _].
      now rewrite is_empty_append_char in H.
Qed.

Lemma split_from_all_space s :
  Str.all_space s = true -> Str.split_from EmptyString s = [].
Proof.
  induction s as [|c s IH]; simpl; [reflexivity|].
  intros [Hc Hs]%andb_prop. rewrite Hc. auto.
Qed.

Lemma rstrip_cons_space c s :
  Str.is_space c = true ->
  Str.sub_ws true (Str.rstrip (String c s)) = Str.sub_ws true (Str.rstrip s).
Proof.
  intros Hc. simpl. rewrite Hc. simpl.
  destruct (Str.rstrip s) eqn:Hr; simpl; [reflexivity|]. now rewrite Hc.
Qed.

(** The tokens joined by one space, read off the string itself. *)
Lemma join_split_from s : forall cur,
  Str.join " " (Str.split_from cur s) =
    if Str.is_empty cur then Str.sub_ws true (Str.rstrip s)
    else cur ++ Str.sub_ws false (Str.rstrip s).
Proof.
  induction s as [|c s IH]; intros cur.
  - simpl. destruct cur; simpl; [reflexivity|]. now rewrite append_nil_r.
  - destruct (Str.is_space c) eqn:Hc.
    + rewrite (rstrip_cons_space _ _ Hc).
      cbn [Str.split_from]. rewrite Hc.
      destruct (Str.is_empty cur) eqn:He; [apply (IH EmptyString)|].
      specialize (IH EmptyString). cbn [Str.is_empty] in IH.
      destruct (Str.split_from "" s) as [|x l] eqn:Hl.
      * apply split_from_nil in Hl as [_ Hl].
        cbn [Str.rstrip]. rewrite (all_space_rstrip _ Hl), Hc. simpl.
        now rewrite append_nil_r.
      * change (Str.join " " (cur :: x :: l))
          with (cur ++ " " ++ Str.join " " (x :: l)).
        rewrite IH. cbn [Str.rstrip]. rewrite Hc.
        destruct (Str.is_empty (Str.rstrip s)) eqn:Hr.
        -- apply StrFacts.is_empty_true, StrFacts.rstrip_empty in Hr.
           rewrite (split_from_all_space _ Hr) in Hl. discriminate.
        -- simpl. now rewrite Hc.
    + cbn [Str.split_from Str.rstrip]. rewrite Hc, IH, is_empty_append_char.
      cbn [andb]. destruct (Str.is_empty cur) eqn:He.
      * apply StrFacts.is_empty_true in He. subst cur. simpl. now rewrite Hc.
      * rewrite append_assoc. simpl. now rewrite Hc.
Qed.

Lemma sub_ws_strip s :
  Str.sub_ws false (Str.strip s) = Str.sub_ws true (Str.rstrip s).
Proof.
  unfold Str.strip. induction s as [|c s IH]; [reflexivity|].
  destruct (Str.is_space c) eqn:Hc.
  - rewrite (rstrip_cons_space _ _ Hc). cbn [Str.lstrip]. now rewrite Hc.
  - cbn [Str.lstrip]. rewrite Hc. cbn [Str.rstrip]. rewrite Hc. simpl.
    now rewrite Hc.
Qed.

Lemma split_from_tokens s : forall cur,
  no_space cur = true -> Forall (fun t => is_token t = true) (Str.split_from cur s).
Proof.
  assert (Hsnoc : forall cur c, no_space cur = true -> Str.is_space c = false ->
                    no_space (cur ++ String c EmptyString) = true).
  { induction cur as [|d cur IH]; simpl; intros c Hn Hc.
    - now rewrite Hc.
    - apply andb_prop in Hn as [Hd Hn]. rewrite Hd. simpl. auto. }
  induction s as [|c s IH]; intros cur Hcur; simpl.
  - destruct (Str.is_empty cur) eqn:He; constructor; [|constructor].
    unfold is_token. now rewrite He, Hcur.
  - destruct (Str.is_space c) eqn:Hc.
    + destruct (Str.is_empty cur) eqn:He; [now apply IH|].
      constructor; [|now apply IH]. unfold is_token. now rewrite He, Hcur.
    + apply IH. now apply Hsnoc.
Qed.

Lemma split_from_append tok : forall cur rest,
  no_space tok = true ->
  Str.split_from cur (tok ++ rest) = Str.split_from (cur ++ tok) rest.
Proof.
  induction tok as [|c tok IH]; intros cur rest Hn.
  - now rewrite append_nil_r.
  - simpl in Hn. apply andb_prop in Hn as [Hc Hn].
    apply negb_true_iff in Hc.
    change (String c tok ++ rest) with (String c (tok ++ rest)).
    cbn [Str.split_from]. rewrite Hc, (IH _ _ Hn), append_assoc.
    reflexivity.
Qed.

(** Splitting what [join] made of tokens gives the tokens back. *)
Lemma split_join tokens :
  Forall (fun t => is_token t = true) tokens ->
  Str.split (Str.join " " tokens) = tokens.
Proof.
  unfold Str.split. induction 1 as [|x l Hx _ IH]; [reflexivity|].
  unfold is_token in Hx. apply andb_prop in Hx as [He Hn].
  apply negb_true_iff in He.
  destruct l as [|y l].
  - cbn [Str.join].
    transitivity (Str.split_from "" (x ++ "")); [now rewrite append_nil_r|].
    rewrite (split_from_append _ _ _ Hn).
    cbn [Str.split_from]. change ("" ++ x) with x. now rewrite He.
  - change (Str.join " " (x :: y :: l))
      with (x ++ String " " (Str.join " " (y :: l))).
    rewrite (split_from_append _ _ _ Hn). change ("" ++ x) with x.
    cbn [Str.split_from]. change (Str.is_space " ") with true. cbv iota.
    now rewrite He, IH.
Qed.

Lemma name_tokens_are_tokens name :
  Forall (fun t => is_token t = true) (name_tokens name).
Proof. apply split_from_tokens. reflexivity. Qed.

Lemma lower_char_idempotent c :
  Str.lower_char (Str.lower_char c) = Str.lower_char c.
Proof. destruct c as [[] [] [] [] [] [] [] []]; reflexivity. Qed.


Lemma lower_idempotent s : Str.lower (Str.lower s) = Str.lower s.
Proof.
  induction s as [|c s IH]; [reflexivity|].
  cbn [Str.lower Str.map_chars]. rewrite lower_char_idempotent.
  f_equal. exact IH.
Qed.


Lemma lower_sub_ws s : forall b,
  Str.lower (Str.sub_ws b s) = Str.sub_ws b (Str.lower s).
Proof.
  induction s as [|c s IH]; intros b; [reflexivity|].
  cbn [Str.lower Str.map_chars Str.sub_ws]. rewrite is_space_lower_char.
  destruct (Str.is_space c).
  - destruct b; [apply IH|]. cbn [Str.lower Str.map_chars]. f_equal. apply IH.
  - cbn [Str.lower Str.map_chars]. f_equal. apply IH.
Qed.

Lemma lower__cache_key name : Str.lower (_cache_key name) = _cache_key name.
Proof.
  unfold _cache_key, Str.collapse_ws. now rewrite lower_sub_ws, lower_idempotent.
Qed.

Lemma _cache_key_join name :
  _cache_key name = Str.join " " (name_tokens name).
Proof.
  unfold _cache_key, Str.collapse_ws, name_tokens, Str.split.
  rewrite <- strip_lower, sub_ws_strip, join_split_from. reflexivity.
Qed.

Lemma _cache_key_of_tokens a b :
  name_tokens a = name_tokens b -> _cache_key a = _cache_key b.
Proof. intros H. now rewrite !_cache_key_join, H. Qed.

Lemma name_tokens_of__cache_key a b :
  _cache_key a = _cache_key b -> name_tokens a = name_tokens b.
Proof.
  rewrite !_cache_key_join. intros H. apply (f_equal Str.split) in H.
  now rewrite !split_join in H by apply name_tokens_are_tokens.
Qed.

Lemma _cache_key_fixed name : _cache_key (_cache_key name) = _cache_key name.
Proof.
  apply _cache_key_of_tokens. unfold name_tokens at 1.
  rewrite lower__cache_key, _cache_key_join.
  apply split_join, name_tokens_are_tokens.
Qed.

(** X1: the cache key of a name is its lowercased words joined by single
    spaces, each word being non-empty and free of whitespace; the words are
    the [name_parts] that [search_professor] matches with. *)
Theorem _cache_key_tokens name :
  _cache_key name = Str.join " " (name_tokens name) /\
  Forall (fun t => is_token t = true) (name_tokens name).
Proof. split; [apply _cache_key_join | apply name_tokens_are_tokens]. Qed.

(** X2: two names have the same cache key exactly when they have the same
    lowercased words in the same order. *)
Theorem _cache_key_eq_iff a b :
  _cache_key a = _cache_key b <-> name_tokens a = name_tokens b.
Proof.
  split; [apply name_tokens_of__cache_key | apply _cache_key_of_tokens].
Qed.

(** X3: a cache key is its own cache key, and it has no upper-case letter:
    lowercasing leaves it as it is. *)
Theorem _cache_key_idempotent name :
  _cache_key (_cache_key name) = _cache_key name /\
  Str.lower (_cache_key name) = _cache_key name.
Proof. split; [apply _cache_key_fixed | apply lower__cache_key]. Qed.

(** ** The match of a name *)

Lemma str_in_In x l : Py.str_in x l = true <-> In x l.
Proof.
  unfold Py.str_in. rewrite existsb_exists. split.
  - intros (y & Hy & He). apply String.eqb_eq in He. now subst.
  - intros H. exists x. split; [exact H | apply String.eqb_refl].
Qed.

Lemma same_token_set_str_in a b :
  same_token_set a b = true -> forall x, Py.str_in x a = Py.str_in x b.
Proof.
  unfold same_token_set. intros [Hab Hba]%andb_prop x.
  rewrite forallb_forall in Hab, Hba.
  destruct (Py.str_in x a) eqn:Ha, (Py.str_in x b) eqn:Hb; try reflexivity.
  - apply str_in_In, Hab in Ha. congruence.
  - apply str_in_In, Hba in Hb. congruence.
Qed.

Lemma first_match_ext parts parts' rated :
  (forall x, Py.str_in x parts = Py.str_in x parts') ->
  first_match parts rated = first_match parts' rated.
Proof.
  intros H. induction rated as [|prof rest IH]; [reflexivity|].
  rewrite !first_match_cons.
  destruct (Py.getitem prof "firstName") as [f|]; [|reflexivity].
  cbn [mbind res_bind].
  destruct (Py.lower_strip f) as [first|]; [|reflexivity].
  cbn [mbind res_bind].
  destruct (Py.getitem prof "lastName") as [l|]; [|reflexivity].
  cbn [mbind res_bind].
  destruct (Py.lower_strip l) as [last|]; [|reflexivity].
  cbn [mbind res_bind]. now rewrite !H, IH.
Qed.

(** X4: the professor [search_professor] picks among the edges of a response
    depends on the query only through the set of its lowercased words: the
    order of the words and their repetition do not matter. *)
Theorem search_professor_match_token_set a b edges :
  same_token_set (name_tokens a) (name_tokens b) = true ->
  search_professor_match a edges = search_professor_match b edges.
Proof.
  intros H. unfold search_professor_match.
  destruct (negb (Py.truthy edges)); [reflexivity|].
  destruct (Py.iter edges) as [items|]; [|reflexivity]. cbn [mbind res_bind].
  destruct (rated_nodes items) as [rated|]; [|reflexivity].
  cbn [mbind res_bind]. destruct rated; [reflexivity|].
  apply first_match_ext, same_token_set_str_in, H.
Qed.

Lemma search_professor_match_token_set_witness :
  search_professor_match "Jane Doe"
    (PList [Candidate.edge Example.unrated; Candidate.edge Example.jane]) =
  search_professor_match "DOE  jane Jane"
    (PList [Candidate.edge Example.unrated; Candidate.edge Example.jane]).
Proof.
  apply (search_professor_match_token_set "Jane Doe" "DOE  jane Jane").
  reflexivity.
Defined.


Lemma rated_nodes_sound items : forall rated prof,
  rated_nodes items = Ok rated -> In prof rated ->
  exists e n,
    In e items /\ Py.getitem e "node" = Ok prof /\
    Py.getitem prof "numRatings" = Ok n /\ Py.gt_zero n = Ok true.
Proof.
  induction items as [|e rest IH]; intros rated prof.
  - intros [= <-] [].
  - rewrite rated_nodes_cons. intros H Hin.
    apply res_bind_inv in H as (node & Hnode & H).
    apply res_bind_inv in H as (n & Hn & H).
    apply res_bind_inv in H as (keep & Hkeep & H).
    apply res_bind_inv in H as (tail & Htail & H).
    injection H as <-.
    assert (Hrest : In prof tail ->
              exists e0 n0, In e0 (e :: rest) /\ Py.getitem e0 "node" = Ok prof /\
                Py.getitem prof "numRatings" = Ok n0 /\ Py.gt_zero n0 = Ok true).
    { intros Ht. destruct (IH _ _ Htail Ht) as (e0 & n0 & H0 & H1).
      exists e0, n0. split; [now right | exact H1]. }
    destruct keep; [|auto].
    destruct Hin as [<-|Hin]; [|auto].
    exists e, n. repeat split; auto. now left.
Qed.

Lemma first_match_sound parts rated : forall prof,
  first_match parts rated = Ok (Some prof) ->
  exists f l,
    In prof rated /\
    Py.getitem prof "firstName" = Ok (PStr f) /\
    Py.getitem prof "lastName" = Ok (PStr l) /\
    In (Str.strip (Str.lower f)) parts /\
    In (Str.strip (Str.lower l)) parts.
Proof.
  induction rated as [|p rest IH]; intros prof; [discriminate|].
  rewrite first_match_cons. intros H.
  apply res_bind_inv in H as (f & Hf & H).
  apply res_bind_inv in H as (first & Hfirst & H).
  apply res_bind_inv in H as (l & Hl & H).
  apply res_bind_inv in H as (last & Hlast & H).
  destruct (Py.str_in last parts && Py.str_in first parts) eqn:Hc.
  - injection H as <-. apply andb_prop in Hc as [H1 H2].
    destruct f; try discriminate. destruct l; try discriminate.
    injection Hfirst as <-. injection Hlast as <-.
    apply str_in_In in H1, H2.
    eexists _, _. repeat split; eauto. now left.
  - destruct (IH _ H) as (f' & l' & Hin & H'). exists f', l'.
    split; [now right | exact H'].
Qed.

Lemma In_tokens name t : In t (name_tokens name) -> is_token t = true.
Proof.
  intros H.
  exact (proj1 (List.Forall_forall _ _) (name_tokens_are_tokens name) t H).
Qed.

(** X6: a professor that [search_professor] picks is the node of an edge of
    the response, has a numRatings above zero, and has a first and a last
    name that are strings and, lowercased and trimmed, are each one word of
    the query: non-empty and without whitespace inside. *)
Theorem search_professor_match_sound name edges prof :
  search_professor_match name edges = Ok (Some prof) ->
  exists items e n f l,
    Py.iter edges = Ok items /\ In e items /\
    Py.getitem e "node" = Ok prof /\
    Py.getitem prof "numRatings" = Ok n /\ Py.gt_zero n = Ok true /\
    Py.getitem prof "firstName" = Ok (PStr f) /\
    Py.getitem prof "lastName" = Ok (PStr l) /\
    In (Str.strip (Str.lower f)) (name_tokens name) /\
    In (Str.strip (Str.lower l)) (name_tokens name) /\
    is_token (Str.strip (Str.lower f)) = true /\
    is_token (Str.strip (Str.lower l)) = true.
Proof.
  unfold search_professor_match.
  destruct (negb (Py.truthy edges)); [discriminate|]. intros H.
  apply res_bind_inv in H as (items & Hi & H).
  apply res_bind_inv in H as (rated & Hr & H).
  assert (Hm : first_match (name_tokens name) rated = Ok (Some prof))
    by (destruct rated; [discriminate | exact H]).
  destruct (first_match_sound _ _ _ Hm) as (f & l & Hin & Hf & Hl & H1 & H2).
  destruct (rated_nodes_sound _ _ _ Hr Hin) as (e & n & He & Hnode & Hn & Hg).
  exists items, e, n, f, l.
  repeat split; eauto using In_tokens.
Qed.

Lemma search_professor_match_sound_witness :
  exists items e n f l,
    Py.iter (PList [Candidate.edge Example.unrated; Candidate.edge Example.jane])
      = Ok items /\ In e items /\
    Py.getitem e "node" = Ok (Candidate.encode Example.jane) /\
    Py.getitem (Candidate.encode Example.jane) "numRatings" = Ok n /\
    Py.gt_zero n = Ok true /\
    Py.getitem (Candidate.encode Example.jane) "firstName" = Ok (PStr f) /\
    Py.getitem (Candidate.encode Example.jane) "lastName" = Ok (PStr l) /\
    In (Str.strip (Str.lower f)) (name_tokens "jane  DOE") /\
    In (Str.strip (Str.lower l)) (name_tokens "jane  DOE") /\
    is_token (Str.strip (Str.lower f)) = true /\
    is_token (Str.strip (Str.lower l)) = true.
Proof.
  apply (search_professor_match_sound "jane  DOE"
           (PList [Candidate.edge Example.unrated; Candidate.edge Example.jane])
           (Candidate.encode Example.jane)).
  reflexivity.
Defined.

(** ** Outcomes of [get_professor] *)

Lemma name_missing_all_space name :
  name_missing name = Str.all_space name.
Proof.
  destruct (Str.all_space name) eqn:Ha.
  - now apply name_missing_iff, StrFacts.strip_empty_iff.
  - destruct (name_missing name) eqn:Hn; [|reflexivity].
    apply name_missing_iff, StrFacts.strip_empty_iff in Hn. congruence.
Qed.

Lemma search_professor_nothing svc name st :
  (forall edges,
     search_response svc (calls st) (Str.remove_char (ascii_of_N 34) name)
       UWT_SCHOOL_ID = Some edges -> Py.truthy edges = false) ->
  search_professor svc name st = (Ok None, log (search_call name) st).
Proof.
  intros H. unfold search_professor, bind, try_except, perform, ret, lift.
  destruct (search_response svc _ _ _) as [edges|]; [|reflexivity].
  unfold search_professor_match. now rewrite (H edges eq_refl).
Qed.

(** X7: when the search service fails, or answers with no edges, the
    resolution of a name that is not blank and not cached ends in the 404
    not-found error that quotes the name, after that one call and with the
    cache as it was. *)
Theorem get_professor_search_failure svc name st :
  Str.all_space name = false ->
  _cache st !! _cache_key name = None ->
  (forall edges,
     search_response svc (calls st) (Str.remove_char (ascii_of_N 34) name)
       UWT_SCHOOL_ID = Some edges -> Py.truthy edges = false) ->
  get_professor svc name st =
    (Raise (HTTPException 404
              ("No professor found for '" ++ name ++ "' at UW Tacoma.")),
     {| _cache := _cache st;
        calls := calls st ++
                 [SearchCall (Str.remove_char (ascii_of_N 34) name)
                    UWT_SCHOOL_ID] |}).
Proof.
  intros Hn Hc Hs.
  rewrite get_professor_unfold, name_missing_all_space, Hn, Hc.
  now rewrite (search_professor_nothing _ _ _ Hs).
Qed.

Lemma get_professor_search_failure_witness :
  get_professor offline "Jane Doe" Example.start =
    (Raise (HTTPException 404 "No professor found for 'Jane Doe' at UW Tacoma."),
     {| _cache := ∅; calls := [SearchCall "Jane Doe" UWT_SCHOOL_ID] |}).
Proof.
  apply (get_professor_search_failure offline "Jane Doe" Example.start);
    [reflexivity | reflexivity | discriminate].
Defined.

(** X8: [get_professor] raises an [HTTPException] in two cases only: the
    error 400 "Professor name is required." for a blank name, with the state
    untouched, and the error 404 that quotes the name, for a name that is not
    blank and not cached, after the search call alone. What else it raises is
    an exception of another kind. *)
Theorem get_professor_http_errors svc name st c d st' :
  get_professor svc name st = (Raise (HTTPException c d), st') ->
  (Str.all_space name = true /\ c = 400 /\
   d = "Professor name is required." /\ st' = st) \/
  (Str.all_space name = false /\ _cache st !! _cache_key name = None /\
   c = 404 /\ d = "No professor found for '" ++ name ++ "' at UW Tacoma." /\
   st' = log (search_call name) st).
Proof.
  rewrite get_professor_unfold, name_missing_all_space.
  destruct (Str.all_space name); [intros [= <- <- <-]; left; auto|].
  destruct (_cache st !! _cache_key name); [discriminate|].
  pose proof (search_professor_state svc name st) as Hs.
  pose proof (search_professor_plain svc name st) as Hp.
  destruct (search_professor svc name st) as [[[prof|]|e] st1];
    simpl in Hs, Hp; subst st1.
  - destruct (Py.truthy prof).
    + intros H. now apply M_plain_eq in H; [|apply found_steps_plain].
    + intros [= <- <- <-]. right. auto.
  - intros [= <- <- <-]. right. auto.
  - intros [= -> _]. contradiction.
Qed.

Lemma get_professor_http_errors_witness :
  (Str.all_space "Doe" = true /\ 404 = 400 /\
   "No professor found for 'Doe' at UW Tacoma." =
     "Professor name is required." /\
   log (search_call "Doe") Example.start = Example.start) \/
  (Str.all_space "Doe" = false /\
   _cache Example.start !! _cache_key "Doe" = None /\
   404 = 404 /\
   "No professor found for 'Doe' at UW Tacoma." =
     "No professor found for '" ++ "Doe" ++ "' at UW Tacoma." /\
   log (search_call "Doe") Example.start =
     log (search_call "Doe") Example.start).
Proof.
  apply (get_professor_http_errors (Example.world None) "Doe" Example.start).
  reflexivity.
Defined.

Lemma get_professor_cache_cases svc name st :
  _cache (snd (get_professor svc name st)) = _cache st \/
  exists result,
    name_missing name = false /\
    _cache st !! _cache_key name = None /\
    _cache (snd (get_professor svc name st)) =
      <[_cache_key name := result]> (_cache st).
Proof.
  destruct (get_professor svc name st) as [[result|e] st'] eqn:Hg; simpl.
  - apply get_professor_stored in Hg as [Hn [[-> _] | [Hc Hi]]]; eauto.
  - left. eapply get_professor_failed, Hg.
Qed.

(** X9: a resolution never evicts or replaces an entry of the cache: the
    cache after it contains the cache before it, and a key that is new in
    it is the cache key of the name. *)
Theorem get_professor_cache_grows svc name st :
  _cache st ⊆ _cache (snd (get_professor svc name st)) /\
  forall k,
    is_Some (_cache (snd (get_professor svc name st)) !! k) ->
    is_Some (_cache st !! k) \/ k = _cache_key name.
Proof.
  destruct (get_professor_cache_cases svc name st)
    as [-> | (result & _ & Hc & ->)]; [auto|].
  split; [now apply insert_subseteq|].
  intros k. destruct (decide (k = _cache_key name)) as [->|Hk]; [auto|].
  rewrite lookup_insert_ne by congruence. auto.
Qed.

(** X10: the keys of the cache stay cache keys: when every key of the cache
    is non-empty and its own cache key before a resolution, so is every key
    after it. *)
Theorem get_professor_keys_normal svc name st :
  keys_normal st -> keys_normal (snd (get_professor svc name st)).
Proof.
  intros H.
  destruct (get_professor_cache_cases svc name st)
    as [E | (result & Hn & Hc & E)]; unfold keys_normal; rewrite E; [exact H|].
  intros k. destruct (decide (k = _cache_key name)) as [->|Hk].
  - intros _. split; [apply _cache_key_fixed|].
    intros He. apply _cache_key_empty, name_missing_iff in He. congruence.
  - rewrite lookup_insert_ne by congruence. apply H.
Qed.

Lemma get_professor_keys_normal_witness :
  is_Some (_cache (snd (get_professor (Example.world None) "  Jane   Doe "
                          Example.start)) !! "jane doe") /\
  keys_normal (snd (get_professor (Example.world None) "  Jane   Doe "
                      Example.start)).
Proof.
  split; [vm_compute; eauto|].
  apply (get_professor_keys_normal (Example.world None) "  Jane   Doe "
           Example.start).
  intros k [v Hv].
  change (_cache Example.start) with (∅ : gmap string ProfessorData.t) in Hv.
  rewrite lookup_empty in Hv. discriminate.
Defined.

(** ** What the sanitizing loop lets through *)

Lemma rstrip_idempotent s : Str.rstrip (Str.rstrip s) = Str.rstrip s.
Proof.
  induction s as [|c s IH]; [reflexivity|]. cbn [Str.rstrip].
  destruct (Str.is_space c && Str.is_empty (Str.rstrip s)) eqn:H;
    [reflexivity|].
  cbn [Str.rstrip]. now rewrite IH, H.
Qed.

Lemma lstrip_rstrip_lstrip s :
  Str.lstrip (Str.rstrip (Str.lstrip s)) = Str.rstrip (Str.lstrip s).
Proof.
  destruct (Str.lstrip s) as [|c r] eqn:Hl; [reflexivity|].
  apply StrFacts.lstrip_head in Hl. cbn [Str.rstrip]. rewrite Hl.
  cbn [andb Str.lstrip]. now rewrite Hl.
Qed.

Lemma strip_idempotent s : Str.strip (Str.strip s) = Str.strip s.
Proof.
  unfold Str.strip. now rewrite lstrip_rstrip_lstrip, rstrip_idempotent.
Qed.

Lemma prefix_not_empty n s :
  Str.is_empty s = false -> Str.is_empty (Str.prefix (S n) s) = false.
Proof. now destruct s. Qed.

Lemma py_strip_inv v comment :
  Py.strip v = Ok comment -> Str.strip comment = comment.
Proof.
  destruct v; try discriminate. intros [= <-]. apply strip_idempotent.
Qed.

Lemma short_date_ok raw_date short_date :
  (if Py.truthy raw_date then Py.slice_to 10 raw_date else Ok PNone)
    = Ok short_date ->
  date_ok short_date = true.
Proof.
  destruct (Py.truthy raw_date) eqn:Ht; [|now intros [= <-]].
  destruct raw_date; try discriminate; cbn [Py.slice_to]; intros H.
  - assert (E : short_date = PStr (Str.prefix 10 s)) by congruence.
    subst short_date. cbn [date_ok].
    cbn [Py.truthy] in Ht. apply negb_true_iff in Ht.
    rewrite (prefix_not_empty 9 _ Ht). cbn [negb andb].
    apply Nat.leb_le, prefix_length.
  - assert (E : short_date = PList (firstn 10 l)) by congruence.
    subst short_date. destruct l as [|x l]; [discriminate|].
    cbn [date_ok firstn]. apply Nat.leb_le. cbn [length].
    pose proof (firstn_le_length 9 l). lia.
Qed.

Lemma or_else_course_ok cls : course_ok (Py.or_else cls PNone) = true.
Proof.
  unfold Py.or_else. destruct (Py.truthy cls) eqn:Ht; [|reflexivity].
  destruct cls; try exact Ht. discriminate.
Qed.

Lemma review_of_edge_ok edge review :
  review_of_edge edge = Ok (Some review) -> review_ok review = true.
Proof.
  unfold review_of_edge. intros H.
  apply res_bind_inv in H as (node & _ & H).
  apply res_bind_inv in H as (c & _ & H).
  apply res_bind_inv in H as (comment & Hc & H).
  destruct (Str.is_empty comment) eqn:He; [discriminate|].
  apply res_bind_inv in H as (raw_date & _ & H).
  apply res_bind_inv in H as (short_date & Hd & H).
  apply res_bind_inv in H as (q & _ & H).
  apply res_bind_inv in H as (rating & _ & H).
  apply res_bind_inv in H as (cls & _ & H).
  injection H as <-. unfold review_ok. cbn [Review.text Review.date Review.course].
  rewrite He, (py_strip_inv _ _ Hc), String.eqb_refl, (short_date_ok _ _ Hd).
  now rewrite or_else_course_ok.
Qed.

Lemma reviews_of_edges_ok edges : forall reviews,
  reviews_of_edges edges = Ok reviews ->
  Forall (fun r => review_ok r = true) reviews.
Proof.
  induction edges as [|edge rest IH]; intros reviews.
  - intros [= <-]. constructor.
  - rewrite reviews_of_edges_cons. intros H.
    apply res_bind_inv in H as (r & Hr & H).
    apply res_bind_inv in H as (tail & Ht & H).
    injection H as <-. destruct r as [review|]; [|now apply IH].
    constructor; [eapply review_of_edge_ok, Hr | now apply IH].
Qed.

Lemma fetch_reviews_clean_all_ok edges reviews :
  fetch_reviews_clean edges = Ok reviews ->
  Forall (fun r => review_ok r = true) reviews.
Proof.
  unfold fetch_reviews_clean. intros H.
  apply res_bind_inv in H as (items & _ & H). now apply reviews_of_edges_ok in H.
Qed.

(** X11: every review that the sanitizing loop of [fetch_reviews] returns
    has a text that is trimmed and not empty, a date that is [None] or a
    non-empty slice of at most 10 characters (or items), and a course that
    is [None] or truthy, never an empty string. *)
Theorem fetch_reviews_clean_ok edges reviews :
  fetch_reviews_clean edges = Ok reviews ->
  Forall (fun r =>
            Review.text r <> "" /\
            Str.strip (Review.text r) = Review.text r /\
            date_ok (Review.date r) = true /\
            course_ok (Review.course r) = true) reviews.
Proof.
  intros H. apply fetch_reviews_clean_all_ok in H.
  eapply List.Forall_impl; [|exact H]. intros r Hr. unfold review_ok in Hr.
  apply andb_prop in Hr as [Hr Hc]. apply andb_prop in Hr as [Hr Hd].
  apply andb_prop in Hr as [He Hs].
  apply negb_true_iff, StrFacts.is_empty_false in He.
  apply String.eqb_eq in Hs. auto.
Qed.

Lemma fetch_reviews_clean_ok_witness :
  Forall (fun r =>
            Review.text r <> "" /\
            Str.strip (Review.text r) = Review.text r /\
            date_ok (Review.date r) = true /\
            course_ok (Review.course r) = true)
    [Review.mk 0 "Great lectures, tough exams" PNone (PStr "2024-01-05")].
Proof.
  apply (fetch_reviews_clean_ok
           (PList [RawReview.edge Example.empty_review;
                   RawReview.edge Example.good_review])).
  reflexivity.
Defined.

(** ** Steps 2 to 4 of [get_professor] *)

Lemma fetch_reviews_run svc id count st :
  fetch_reviews svc id count st =
    (match reviews_response svc (calls st) id count with
     | Some edges => fetch_reviews_clean edges
     | None => Ok []
     end,
     log (ReviewsCall id count) st).
Proof.
  unfold fetch_reviews, bind, try_except, perform, ret, lift.
  now destruct (reviews_response svc (calls st) id count).
Qed.

Lemma fetch_reviews_all_ok svc id count st raw st' :
  fetch_reviews svc id count st = (Ok raw, st') ->
  Forall (fun r => review_ok r = true) raw.
Proof.
  rewrite fetch_reviews_run.
  destruct (reviews_response svc (calls st) id count) as [edges|].
  - intros [= H _]. now apply fetch_reviews_clean_all_ok in H.
  - intros [= <- _]. constructor.
Qed.

Lemma reject_cons {A} (p : A -> M bool) x rest :
  reject p (x :: rest) =
    bind (p x) (fun b =>
      bind (reject p rest) (fun kept => ret (if b : bool then kept else x :: kept))).
Proof. reflexivity. Qed.

Lemma reject_no_client svc raw st :
  anthropic_client svc = None ->
  reject (fun r => is_abusive svc (Review.text r)) raw st = (Ok raw, st).
Proof.
  intros Hc. induction raw as [|r rest IH]; [reflexivity|].
  rewrite reject_cons. unfold bind at 1. unfold is_abusive at 1. rewrite Hc.
  unfold ret at 1. unfold bind. now rewrite IH.
Qed.

Lemma reject_moderate svc client raw :
  anthropic_client svc = Some client ->
  forall st,
    reject (fun r => is_abusive svc (Review.text r)) raw st =
      (Ok (moderate client (calls st) raw),
       {| _cache := _cache st;
          calls := (calls st ++ moderation_calls raw)%list |}).
Proof.
  intros Hc. induction raw as [|r rest IH]; intros st.
  - cbn [reject moderate moderation_calls List.map]. unfold ret.
    rewrite app_nil_r. now destruct st.
  - rewrite reject_cons. unfold bind at 1.
    rewrite (is_abusive_run _ _ _ _ Hc). unfold bind. rewrite IH.
    unfold ret, log. cbn [_cache calls moderate moderation_calls List.map].
    rewrite <- app_assoc. cbn [app].
    fold (flagged (client (calls st) (moderation_request (Review.text r)))).
    now destruct (client (calls st) (moderation_request (Review.text r))).
Qed.

Lemma moderate_sublist client raw : forall h,
  sublist (moderate client h raw) raw.
Proof.
  induction raw as [|r rest IH]; intros h; cbn [moderate]; [constructor|].
  destruct (flagged _); constructor; apply IH.
Qed.

Lemma moderate_filter client raw :
  (forall h h' req, client h req = client h' req) ->
  forall h,
    moderate client h raw =
      List.filter
        (fun r => negb (flagged (client [] (moderation_request (Review.text r)))))
        raw.
Proof.
  intros Hc. induction raw as [|r rest IH]; intros h; [reflexivity|].
  cbn [moderate List.filter]. rewrite IH, (Hc h []).
  now destruct (flagged _).
Qed.

(** X12: step 3 of [get_professor] with a model client asks the classifier
    about every fetched review, one request per review in their order,
    leaves the cache alone and raises nothing; when the answers of the
    classifier do not depend on the calls made before, the reviews it keeps
    are exactly those whose answer does not read YES, in their order. *)
Theorem moderation_keeps_unflagged svc client raw st :
  anthropic_client svc = Some client ->
  exists clean,
    reject (fun r => is_abusive svc (Review.text r)) raw st =
      (Ok clean,
       {| _cache := _cache st;
          calls := (calls st ++ moderation_calls raw)%list |}) /\
    sublist clean raw /\
    ((forall h h' req, client h req = client h' req) ->
     clean =
       List.filter
         (fun r =>
            negb (flagged (client [] (moderation_request (Review.text r)))))
         raw).
Proof.
  intros Hc. exists (moderate client (calls st) raw).
  split; [now apply reject_moderate|].
  split; [apply moderate_sublist|].
  intros H. now apply moderate_filter.
Qed.

Lemma moderation_keeps_unflagged_witness :
  reject (fun r => is_abusive (Example.world (Some yes_client)) (Review.text r))
    [Review.mk 5 "Great" PNone PNone] Example.start =
    (Ok [],
     {| _cache := ∅;
        calls := [MessagesCall (moderation_request "Great")] |}).
Proof.
  destruct (moderation_keeps_unflagged (Example.world (Some yes_client))
              yes_client [Review.mk 5 "Great" PNone PNone] Example.start
              eq_refl) as (clean & -> & _ & H).
  now rewrite (H (fun _ _ _ => eq_refl)).
Defined.

Lemma found_steps_unfold svc key prof st :
  found_steps svc key prof st =
    match Py.getitem prof "id" with
    | Raise e => (Raise e, st)
    | Ok id =>
        match fetch_reviews svc id 5 st with
        | (Raise e, s2) => (Raise e, s2)
        | (Ok raw, s2) =>
            match reject (fun r => is_abusive svc (Review.text r)) raw s2 with
            | (Raise e, s3) => (Raise e, s3)
            | (Ok clean, s3) =>
                match summarize_reviews svc (List.map Review.text clean) s3 with
                | (Raise e, s4) => (Raise e, s4)
                | (Ok summary, s4) =>
                    match build_response prof summary clean with
                    | Raise e => (Raise e, s4)
                    | Ok result =>
                        (Ok result,
                         {| _cache := <[key := result]> (_cache s4);
                            calls := calls s4 |})
                    end
                end
            end
        end
    end.
Proof.
  unfold found_steps, bind, lift, cache_set, ret.
  destruct (Py.getitem prof "id") as [id|]; [|reflexivity].
  destruct (fetch_reviews svc id 5 st) as [[raw|] s2]; [|reflexivity].
  destruct (reject _ raw s2) as [[clean|] s3]; [|reflexivity].
  destruct (summarize_reviews svc _ s3) as [[summary|] s4]; [|reflexivity].
  now destruct (build_response prof summary clean).
Qed.

Lemma build_response_passes prof summary reviews result :
  build_response prof summary reviews = Ok result ->
  ProfessorData.summary result = summary /\
  ProfessorData.reviews result = reviews.
Proof.
  unfold build_response. intros H.
  repeat (apply res_bind_inv in H as (? & _ & H)).
  injection H as <-. split; reflexivity.
Qed.

Lemma getitem_truthy d k v : Py.getitem d k = Ok v -> Py.truthy d = true.
Proof.
  destruct d; try discriminate. cbn [Py.getitem Py.truthy].
  now destruct items.
Qed.

(** What [search_professor] returned when it returned a professor. *)
Lemma search_professor_found svc name st prof st1 :
  search_professor svc name st = (Ok (Some prof), st1) ->
  st1 = log (search_call name) st /\ Py.truthy prof = true /\
  exists edges,
    search_response svc (calls st) (Str.remove_char (ascii_of_N 34) name)
      UWT_SCHOOL_ID = Some edges /\
    search_professor_match name edges = Ok (Some prof).
Proof.
  intros H. pose proof (search_professor_state svc name st) as Hs.
  rewrite H in Hs. simpl in Hs. split; [exact Hs|].
  unfold search_professor, bind, try_except, perform, ret, lift in H.
  destruct (search_response svc _ _ _) as [edges|]; [|discriminate].
  injection H as H _. split; [|eauto].
  unfold search_professor_match in H.
  destruct (negb (Py.truthy edges)); [discriminate|].
  apply res_bind_inv in H as (items & _ & H).
  apply res_bind_inv in H as (rated & _ & H).
  assert (Hm : first_match (Str.split (Str.lower name)) rated = Ok (Some prof))
    by (destruct rated; [discriminate | exact H]).
  apply first_match_sound in Hm as (f & l & _ & Hf & _).
  eapply getitem_truthy, Hf.
Qed.

Lemma reject_sublist svc raw st clean st' :
  reject (fun r => is_abusive svc (Review.text r)) raw st = (Ok clean, st') ->
  sublist clean raw.
Proof.
  destruct (anthropic_client svc) as [client|] eqn:Hc.
  - rewrite (reject_moderate _ _ _ Hc). intros [= <- _]. apply moderate_sublist.
  - rewrite (reject_no_client _ _ _ Hc). now intros [= <- _].
Qed.

Lemma sublist_all_ok (clean raw : list Review.t) :
  sublist clean raw ->
  Forall (fun r => review_ok r = true) raw ->
  Forall (fun r => review_ok r = true) clean.
Proof.
  induction 1 as [|x l1 l2 _ IH|x l1 l2 _ IH]; intros H.
  - constructor.
  - apply Forall_cons_1 in H as [Hx H]. constructor; auto.
  - apply Forall_cons_1 in H as [_ H]. auto.
Qed.

Lemma found_steps_reviews_ok svc key prof st result st' :
  found_steps svc key prof st = (Ok result, st') ->
  Forall (fun r => review_ok r = true) (ProfessorData.reviews result).
Proof.
  rewrite found_steps_unfold.
  destruct (Py.getitem prof "id") as [id|]; [|discriminate].
  destruct (fetch_reviews svc id 5 st) as [[raw|] s2] eqn:Hf; [|discriminate].
  destruct (reject _ raw s2) as [[clean|] s3] eqn:Hr; [|discriminate].
  destruct (summarize_reviews svc _ s3) as [[summary|] s4]; [|discriminate].
  destruct (build_response prof summary clean) as [record|] eqn:Hb;
    [|discriminate].
  intros [= <- _]. apply build_response_passes in Hb as [_ ->].
  eapply sublist_all_ok; [eapply reject_sublist, Hr|].
  eapply fetch_reviews_all_ok, Hf.
Qed.

(** X13: the reviews of every record that [get_professor] returns, and of
    every record in the cache after it, have a trimmed non-empty text, a
    date that is [None] or a non-empty slice of at most 10 characters, and
    a course that is [None] or truthy, provided the records in the cache
    before it had. *)
Theorem get_professor_reviews_ok svc name st result st' :
  cache_ok st ->
  get_professor svc name st = (Ok result, st') ->
  Forall (fun r => review_ok r = true) (ProfessorData.reviews result) /\
  cache_ok st'.
Proof.
  intros Hok Hg.
  assert (Hr : Forall (fun r => review_ok r = true)
                 (ProfessorData.reviews result)).
  { rewrite get_professor_unfold in Hg.
    destruct (name_missing name); [discriminate|].
    destruct (_cache st !! _cache_key name) as [hit|] eqn:Hc.
    - injection Hg as -> _. eapply Hok, Hc.
    - destruct (search_professor svc name st) as [[[prof|]|] st1];
        try discriminate.
      destruct (Py.truthy prof); [|discriminate].
      eapply found_steps_reviews_ok, Hg. }
  split; [exact Hr|].
  apply get_professor_stored in Hg as [_ [[-> _] | [_ Hi]]]; [exact Hok|].
  intros k record. rewrite Hi.
  destruct (decide (k = _cache_key name)) as [->|Hk].
  - rewrite lookup_insert_eq. now intros [= <-].
  - rewrite lookup_insert_ne by congruence. apply Hok.
Qed.

Lemma get_professor_reviews_ok_witness :
  exists result st',
    get_professor (Example.world None) "Jane Doe" Example.start =
      (Ok result, st') /\
    length (ProfessorData.reviews result) = 1%nat /\
    Forall (fun r => review_ok r = true) (ProfessorData.reviews result) /\
    cache_ok st'.
Proof.
  destruct (get_professor (Example.world None) "Jane Doe" Example.start)
    as [[result|e] st'] eqn:Hg; [|vm_compute in Hg; discriminate].
  exists result, st'. split; [reflexivity|].
  split; [vm_compute in Hg; injection Hg as <- _; reflexivity|].
  apply (get_professor_reviews_ok (Example.world None) "Jane Doe"
           Example.start result st'); [|exact Hg].
  intros k record Hk.
  change (_cache Example.start) with (∅ : gmap string ProfessorData.t) in Hk.
  rewrite lookup_empty in Hk. discriminate.
Defined.

(** X14: a resolution that misses the cache, matches a professor and
    succeeds has made these external calls, in this order: the search, the
    reviews of the professor's id with count 5 and, when there is a model
    client, one moderation request per fetched review followed by one
    summary request unless no review was kept. The reviews of the record
    are fetched reviews, in their order. *)
Theorem get_professor_calls svc name st prof st1 result st' :
  _cache st !! _cache_key name = None ->
  search_professor svc name st = (Ok (Some prof), st1) ->
  get_professor svc name st = (Ok result, st') ->
  exists id raw,
    Py.getitem prof "id" = Ok id /\
    fst (fetch_reviews svc id 5 st1) = Ok raw /\
    sublist (ProfessorData.reviews result) raw /\
    calls st' =
      (calls st ++ [search_call name; ReviewsCall id 5] ++
       match anthropic_client svc with
       | None => []
       | Some _ =>
           moderation_calls raw ++
           match ProfessorData.reviews result with
           | [] => []
           | clean => [MessagesCall (summary_request (List.map Review.text clean))]
           end
       end)%list.
Proof.
  intros Hc Hs Hg. rewrite get_professor_unfold, Hc, Hs in Hg.
  destruct (name_missing name); [discriminate|].
  apply search_professor_found in Hs as (-> & Ht & _). rewrite Ht in Hg.
  rewrite found_steps_unfold in Hg.
  destruct (Py.getitem prof "id") as [id|]; [|discriminate].
  exists id. rewrite fetch_reviews_run in *. cbn [fst].
  destruct (match reviews_response svc _ id 5 with
            | Some edges => fetch_reviews_clean edges
            | None => Ok []
            end) as [raw|]; [|discriminate].
  exists raw. split; [reflexivity|]. split; [reflexivity|].
  destruct (anthropic_client svc) as [client|] eqn:Hcl.
  - rewrite (reject_moderate _ _ _ Hcl), summarize_reviews_run, Hcl in Hg.
    pose proof (moderate_sublist client raw
                  (calls (log (ReviewsCall id 5) (log (search_call name) st))))
      as Hsub.
    destruct (moderate client _ raw) as [|r clean] eqn:Hm.
    + cbn [List.map] in Hg.
      destruct (build_response prof _ []) as [record|] eqn:Hb; [|discriminate].
      injection Hg as <- <-. apply build_response_passes in Hb as [_ ->].
      split; [exact Hsub|]. cbn [calls log].
      rewrite <- !app_assoc. cbn [app]. now rewrite app_nil_r.
    + cbn [List.map] in Hg.
      destruct (build_response prof _ (r :: clean)) as [record|] eqn:Hb;
        [|discriminate].
      injection Hg as <- <-. apply build_response_passes in Hb as [_ ->].
      split; [exact Hsub|]. cbn [calls log List.map].
      rewrite <- !app_assoc. reflexivity.
  - rewrite (reject_no_client _ _ _ Hcl), summarize_reviews_run, Hcl in Hg.
    destruct (build_response prof _ raw) as [record|] eqn:Hb; [|discriminate].
    injection Hg as <- <-. apply build_response_passes in Hb as [_ ->].
    split; [reflexivity|]. cbn [calls log].
    rewrite <- !app_assoc. reflexivity.
Qed.

Lemma get_professor_calls_witness :
  exists result st',
    get_professor (Example.world (Some yes_client)) "Jane Doe" Example.start =
      (Ok result, st') /\
    ProfessorData.reviews result = [] /\
    calls st' =
      [search_call "Jane Doe"; ReviewsCall (PStr "VGVhY2hlci0x") 5;
       MessagesCall (moderation_request "Great lectures, tough exams")].
Proof.
  destruct (get_professor (Example.world (Some yes_client)) "Jane Doe"
              Example.start) as [[result|e] st'] eqn:Hg;
    [|vm_compute in Hg; discriminate].
  exists result, st'. split; [reflexivity|].
  assert (Hr : ProfessorData.reviews result = [])
    by (vm_compute in Hg; injection Hg as <- _; reflexivity).
  split; [exact Hr|].
  destruct (get_professor_calls (Example.world (Some yes_client)) "Jane Doe"
              Example.start (Candidate.encode Example.jane)
              (log (search_call "Jane Doe") Example.start) result st'
              eq_refl eq_refl Hg) as (id & raw & Hid & Hraw & _ & Hcalls).
  injection Hid as <-. injection Hraw as <-.
  rewrite Hcalls, Hr. reflexivity.
Defined.

(** ** Whole resolutions *)

Lemma search_professor_typed svc name st candidates :
  search_response svc (calls st) (Str.remove_char (ascii_of_N 34) name)
    UWT_SCHOOL_ID = Some (PList (List.map Candidate.edge candidates)) ->
  search_professor svc name st =
    (Ok (Candidate.encode <$> NameMatcher name candidates),
     log (search_call name) st).
Proof.
  intros H. unfold search_professor, bind, try_except, perform, ret, lift.
  rewrite H. now rewrite search_professor_match_typed.
Qed.

Lemma fetch_reviews_typed svc id count st raws :
  reviews_response svc (calls st) id count =
    Some (PList (List.map RawReview.edge raws)) ->
  Forall (fun r => rating_fits r = true) raws ->
  fetch_reviews svc id count st =
    (Ok (omap sanitize raws), log (ReviewsCall id count) st).
Proof.
  intros H Hf. rewrite fetch_reviews_run, H.
  unfold fetch_reviews_clean. cbn [Py.iter mbind res_bind].
  now rewrite (reviews_of_edges_typed _ Hf).
Qed.

(** X15: without a model client, the resolution of a name that is not blank
    and not cached is a function of the two upstream answers: when the search
    answers with candidates among which the name matcher picks [c], and the
    review service answers with well-typed raw reviews, the record is the
    one [ProfessorData(...)] builds from [c], the sanitized reviews in their
    order and the fallback summary for them; it is stored under the cache
    key of the name, and the only external calls are the search and the
    request for 5 reviews of [c]'s id. *)
Theorem get_professor_without_client svc name st candidates c raws result :
  Str.all_space name = false ->
  _cache st !! _cache_key name = None ->
  anthropic_client svc = None ->
  search_response svc (calls st) (Str.remove_char (ascii_of_N 34) name)
    UWT_SCHOOL_ID = Some (PList (List.map Candidate.edge candidates)) ->
  NameMatcher name candidates = Some c ->
  reviews_response svc (calls st ++ [search_call name])
    (PStr (Candidate.id c)) 5 = Some (PList (List.map RawReview.edge raws)) ->
  Forall (fun r => rating_fits r = true) raws ->
  build_response (Candidate.encode c)
    (_fallback_summary (List.map Review.text (omap sanitize raws)))
    (omap sanitize raws) = Ok result ->
  get_professor svc name st =
    (Ok result,
     {| _cache := <[_cache_key name := result]> (_cache st);
        calls := (calls st ++
                  [search_call name; ReviewsCall (PStr (Candidate.id c)) 5])%list |}).
Proof.
  intros Hn Hc Hcl Hs Hm Hr Hf Hb.
  rewrite get_professor_unfold, name_missing_all_space, Hn, Hc.
  rewrite (search_professor_typed _ _ _ _ Hs), Hm.
  cbn [fmap option_fmap option_map].
  change (Py.truthy (Candidate.encode c)) with true. cbv iota.
  rewrite found_steps_unfold.
  change (Py.getitem (Candidate.encode c) "id") with (Ok (PStr (Candidate.id c))).
  cbv iota.
  rewrite (fetch_reviews_typed svc (PStr (Candidate.id c)) 5
             (log (search_call name) st) raws Hr Hf).
  rewrite (reject_no_client _ _ _ Hcl), summarize_reviews_run, Hcl, Hb.
  cbn [_cache calls log]. rewrite <- app_assoc. reflexivity.
Qed.

Lemma get_professor_without_client_witness :
  exists result,
    ProfessorData.name result = "Jane Doe" /\
    get_professor (Example.world None) "jane  DOE" Example.start =
      (Ok result,
       {| _cache := <["jane doe" := result]> ∅;
          calls := [SearchCall "jane  DOE" UWT_SCHOOL_ID;
                    ReviewsCall (PStr "VGVhY2hlci0x") 5] |}).
Proof.
  destruct (build_response (Candidate.encode Example.jane)
              (_fallback_summary
                 (List.map Review.text
                    (omap sanitize [Example.empty_review; Example.good_review])))
              (omap sanitize [Example.empty_review; Example.good_review]))
    as [result|e] eqn:Hb; [|vm_compute in Hb; discriminate].
  exists result. split.
  - vm_compute in Hb. injection Hb as <-. reflexivity.
  - apply (get_professor_without_client (Example.world None) "jane  DOE"
             Example.start [Example.unrated; Example.jane] Example.jane
             [Example.empty_review; Example.good_review] result);
      [reflexivity | reflexivity | reflexivity | reflexivity | reflexivity
      | reflexivity | repeat constructor | exact Hb].
Defined.

(** X16: a failure of the review service does not fail the resolution. When
    a professor is matched and the request for its reviews fails, no model
    call is made, even with a client; the record is built with no review and
    the summary "No reviews available to summarize.", and when that succeeds
    it is stored in the cache like any other. A failure to build it leaves
    the cache as it was. *)
Theorem get_professor_reviews_failure svc name st prof st1 id :
  Str.all_space name = false ->
  _cache st !! _cache_key name = None ->
  search_professor svc name st = (Ok (Some prof), st1) ->
  Py.getitem prof "id" = Ok id ->
  reviews_response svc (calls st1) id 5 = None ->
  get_professor svc name st =
    match build_response prof "No reviews available to summarize." [] with
    | Ok result =>
        (Ok result,
         {| _cache := <[_cache_key name := result]> (_cache st);
            calls := (calls st ++ [search_call name; ReviewsCall id 5])%list |})
    | Raise e =>
        (Raise e,
         {| _cache := _cache st;
            calls := (calls st ++ [search_call name; ReviewsCall id 5])%list |})
    end.
Proof.
  intros Hn Hc Hs Hid Hr.
  rewrite get_professor_unfold, name_missing_all_space, Hn, Hc, Hs.
  apply search_professor_found in Hs as (-> & Ht & _). rewrite Ht.
  rewrite found_steps_unfold, Hid, fetch_reviews_run, Hr.
  assert (E : reject (fun r => is_abusive svc (Review.text r)) []
                (log (ReviewsCall id 5) (log (search_call name) st)) =
              (Ok [], log (ReviewsCall id 5) (log (search_call name) st)))
    by reflexivity.
  rewrite E, summarize_reviews_run. cbn [List.map].
  change (_fallback_summary []) with "No reviews available to summarize.".
  destruct (anthropic_client svc);
    (destruct (build_response prof "No reviews available to summarize." []);
     unfold log; cbn [_cache calls]; rewrite <- app_assoc; reflexivity).
Qed.

Lemma get_professor_reviews_failure_witness :
  exists result,
    ProfessorData.reviews result = [] /\
    ProfessorData.summary result = "No reviews available to summarize." /\
    get_professor (reviews_down (Some yes_client)) "Jane Doe" Example.start =
      (Ok result,
       {| _cache := <["jane doe" := result]> ∅;
          calls := [SearchCall "Jane Doe" UWT_SCHOOL_ID;
                    ReviewsCall (PStr "VGVhY2hlci0x") 5] |}).
Proof.
  pose proof (get_professor_reviews_failure (reviews_down (Some yes_client))
                "Jane Doe" Example.start (Candidate.encode Example.jane)
                (log (search_call "Jane Doe") Example.start)
                (PStr "VGVhY2hlci0x")
                eq_refl eq_refl eq_refl eq_refl eq_refl) as H.
  destruct (build_response (Candidate.encode Example.jane)
              "No reviews available to summarize." [])
    as [result|e] eqn:Hb; [|vm_compute in Hb; discriminate].
  exists result.
  split; [vm_compute in Hb; injection Hb as <-; reflexivity|].
  split; [vm_compute in Hb; injection Hb as <-; reflexivity|].
  exact H.
Defined.

(** ** The record of a candidate *)

Lemma getitem_rating c :
  Py.getitem (Candidate.encode c) "rating" = field_item (Candidate.rating c).
Proof. destruct c as [id f l [| |r] [| |d] [| |w] n [| |dep]]; reflexivity. Qed.

Lemma getitem_difficulty c :
  Py.getitem (Candidate.encode c) "difficulty" =
    field_item (Candidate.difficulty c).
Proof. destruct c as [id f l [| |r] [| |d] [| |w] n [| |dep]]; reflexivity. Qed.

Lemma getitem_wouldTakeAgainPercent c :
  Py.getitem (Candidate.encode c) "wouldTakeAgainPercent" =
    field_item (Candidate.wouldTakeAgainPercent c).
Proof. destruct c as [id f l [| |r] [| |d] [| |w] n [| |dep]]; reflexivity. Qed.

Lemma get_field c k x :
  Py.getitem (Candidate.encode c) k = field_item x ->
  Py.get (Candidate.encode c) k =
    Ok (match x with Value n => encode_number n | _ => PNone end).
Proof.
  unfold Py.get, Py.get_default, Py.getitem, Candidate.encode.
  destruct (Py.assoc k _), x; cbn [field_item]; congruence.
Qed.

Lemma get_department c :
  Py.get (Candidate.encode c) "department" =
    Ok (match Candidate.department c with Value s => PStr s | _ => PNone end).
Proof. destruct c as [id f l [| |r] [| |d] [| |w] n [| |dep]]; reflexivity. Qed.

Lemma to_float_number n :
  number_fits n = true -> Py.to_float (encode_number n) = Ok (number_float n).
Proof.
  destruct n as [z|f]; cbn [number_fits encode_number Py.to_float number_float];
    [|reflexivity].
  now destruct (PyFloat.of_Z z).
Qed.

Lemma ge_zero_number n : exists b, Py.ge_zero (encode_number n) = Ok b.
Proof. destruct n; cbn [encode_number Py.ge_zero]; eauto. Qed.

(** The guarded field for difficulty is computed without error. *)
Lemma difficulty_field c :
  field_fits (Candidate.difficulty c) = true ->
  exists v,
    (if Py.truthy (match Candidate.difficulty c with
                   | Value n => encode_number n
                   | _ => PNone
                   end)
     then x ← Py.getitem (Candidate.encode c) "difficulty" ≫= Py.to_float;
          Ok (Some (PyFloat.round1 x))
     else Ok None) = Ok v.
Proof.
  rewrite getitem_difficulty.
  destruct (Candidate.difficulty c) as [| |n]; cbn [field_fits Py.truthy];
    eauto.
  intros Hf. destruct (Py.truthy (encode_number n)); [|eauto].
  cbn [field_item mbind res_bind]. rewrite (to_float_number _ Hf).
  cbn [mbind res_bind]. eauto.
Qed.

Lemma wouldTakeAgain_field c :
  field_fits (Candidate.wouldTakeAgainPercent c) = true ->
  exists v,
    (known ←
       (if Py.truthy (match Candidate.wouldTakeAgainPercent c with
                      | Value n => encode_number n
                      | _ => PNone
                      end)
        then Py.getitem (Candidate.encode c) "wouldTakeAgainPercent"
               ≫= Py.ge_zero
        else Ok false);
     if known : bool
     then x ← Py.getitem (Candidate.encode c) "wouldTakeAgainPercent"
                ≫= Py.to_float;
          Ok (Some (PyFloat.round1 x))
     else Ok None) = Ok v.
Proof.
  rewrite getitem_wouldTakeAgainPercent.
  destruct (Candidate.wouldTakeAgainPercent c) as [| |n];
    cbn [field_fits Py.truthy mbind res_bind]; eauto.
  intros Hf. destruct (Py.truthy (encode_number n));
    cbn [field_item mbind res_bind]; [|eauto].
  destruct (ge_zero_number n) as [b ->]. cbn [mbind res_bind].
  destruct b; [|eauto].
  rewrite (to_float_number _ Hf). cbn [mbind res_bind]. eauto.
Qed.

(** X17: the record of a well-typed candidate. A candidate without a rating
    makes [ProfessorData(...)] raise: [KeyError] when the key is missing,
    [TypeError] when it is null. With a rating, and numbers that [float]
    accepts, a record is built: its name is the candidate's first and last
    name as given, a space between them, its rating the candidate's rounded
    to one decimal, its numRatings and department the candidate's (no
    department when missing or null), and the summary and reviews are the
    ones passed in. *)
Theorem build_response_typed c summary reviews :
  match Candidate.rating c with
  | Missing =>
      build_response (Candidate.encode c) summary reviews = Raise KeyError
  | Null =>
      build_response (Candidate.encode c) summary reviews = Raise TypeError
  | Value n =>
      number_fits n = true ->
      field_fits (Candidate.difficulty c) = true ->
      field_fits (Candidate.wouldTakeAgainPercent c) = true ->
      exists result,
        build_response (Candidate.encode c) summary reviews = Ok result /\
        ProfessorData.name result =
          Candidate.firstName c ++ " " ++ Candidate.lastName c /\
        ProfessorData.rating result = PyFloat.round1 (number_float n) /\
        ProfessorData.numRatings result = PInt (Candidate.numRatings c) /\
        ProfessorData.department result =
          match Candidate.department c with
          | Value s => PStr s
          | _ => PNone
          end /\
        ProfessorData.summary result = summary /\
        ProfessorData.reviews result = reviews
  end.
Proof.
  unfold build_response.
  rewrite getitem_firstName, getitem_lastName. cbn [mbind res_bind as_text].
  rewrite getitem_rating.
  destruct (Candidate.rating c) as [| |n]; [reflexivity | reflexivity|].
  intros Hn Hd Hw. cbn [field_item mbind res_bind].
  rewrite (to_float_number _ Hn). cbn [mbind res_bind].
  rewrite (get_field _ _ _ (getitem_difficulty c)). cbn [mbind res_bind].
  destruct (difficulty_field c Hd) as [dv ->]. cbn [mbind res_bind].
  rewrite (get_field _ _ _ (getitem_wouldTakeAgainPercent c)).
  cbn [mbind res_bind].
  destruct (wouldTakeAgain_field c Hw) as [wv Hwv].
  destruct (if Py.truthy _ then _ else Ok false) as [known|];
    [|discriminate Hwv].
  cbn [mbind res_bind] in Hwv |- *. rewrite Hwv. cbn [mbind res_bind].
  rewrite getitem_numRatings. cbn [mbind res_bind].
  rewrite get_department. cbn [mbind res_bind].
  eexists. split; [reflexivity|]. repeat split.
Qed.

Lemma build_response_typed_witness :
  exists result,
    build_response (Candidate.encode Example.jane) "A summary." [] = Ok result /\
    ProfessorData.name result = "Jane Doe" /\
    ProfessorData.rating result = PyFloat.round1 (number_float (Float 4.25)) /\
    ProfessorData.numRatings result = PInt 12 /\
    ProfessorData.department result = PStr "Computer Science" /\
    ProfessorData.summary result = "A summary." /\
    ProfessorData.reviews result = [].
Proof.
  apply (build_response_typed Example.jane "A summary." []); reflexivity.
Defined.

(** ** The text of the search *)

Lemma has_char_remove_char c s : has_char c (Str.remove_char c s) = false.
Proof.
  induction s as [|d s IH]; [reflexivity|]. cbn [Str.remove_char].
  destruct (Ascii.eqb c d) eqn:H; [exact IH|].
  cbn [has_char]. now rewrite H, IH.
Qed.

Lemma remove_char_absent c s :
  has_char c s = false -> Str.remove_char c s = s.
Proof.
  induction s as [|d s IH]; [reflexivity|]. cbn [has_char Str.remove_char].
  intros [H1 H2]%orb_false_elim. rewrite H1. f_equal. auto.
Qed.

Lemma remove_char_length c s :
  (String.length (Str.remove_char c s) <= String.length s)%nat.
Proof.
  induction s as [|d s IH]; [reflexivity|]. cbn [Str.remove_char].
  destruct (Ascii.eqb c d); cbn [String.length]; lia.
Qed.

(** X18: [search_professor] sends one search, for UW Tacoma's school id,
    whose text is the name without its double quotes: the text holds no double
    quote, it is the name itself when the name has none, and it is never
    longer than the name. This holds whether the search succeeds or not. *)
Theorem search_professor_text svc name st :
  exists text,
    snd (search_professor svc name st) =
      {| _cache := _cache st;
         calls := (calls st ++ [SearchCall text "U2Nob29sLTQ3NDQ="])%list |} /\
    has_char (ascii_of_N 34) text = false /\
    (has_char (ascii_of_N 34) name = false -> text = name) /\
    (String.length text <= String.length name)%nat.
Proof.
  exists (Str.remove_char (ascii_of_N 34) name).
  split; [apply search_professor_state|].
  split; [apply has_char_remove_char|].
  split; [apply remove_char_absent | apply remove_char_length].
Qed.

(** ** The health endpoint *)

(** X19: [health_check] reports [claude_configured] as true exactly when a
    model client was built at start-up, that is when the API key is not
    empty. When it reports false, [is_abusive] answers [False] and
    [summarize_reviews] returns the fallback summary for every input, both
    without any external call. *)
Theorem health_check_claude_configured key client svc :
  anthropic_client svc = anthropic_client_of key client ->
  exists configured,
    Py.getitem (health_check key) "claude_configured" = Ok (PBool configured) /\
    (configured = true <-> anthropic_client svc = Some client) /\
    (configured = true <-> key <> "") /\
    (configured = false ->
     forall text review_texts st,
       is_abusive svc text st = (Ok false, st) /\
       summarize_reviews svc review_texts st =
         (Ok (_fallback_summary review_texts), st)).
Proof.
  intros H. exists (Py.truthy (PStr key)). split; [reflexivity|].
  unfold anthropic_client_of in H. cbn [Py.truthy] in *.
  destruct key as [|a key]; cbn [Str.is_empty negb] in *.
  - repeat split; try discriminate; try congruence.
    + unfold is_abusive. now rewrite H.
    + unfold summarize_reviews. now rewrite H.
  - repeat split; try discriminate; try congruence.
Qed.

Lemma health_check_claude_configured_witness :
  exists configured,
    Py.getitem (health_check EmptyString) "claude_configured" = Ok (PBool configured) /\
    (configured = true <->
     anthropic_client (Example.world None) = Some yes_client) /\
    (configured = true <-> EmptyString <> EmptyString) /\
    (configured = false ->
     forall text review_texts st,
       is_abusive (Example.world None) text st = (Ok false, st) /\
       summarize_reviews (Example.world None) review_texts st =
         (Ok (_fallback_summary review_texts), st)).
Proof.
  apply (health_check_claude_configured EmptyString yes_client (Example.world None)).
  reflexivity.
Defined.
